(** * LyAssistant: scoring, sanity layer and strategy evolution

    A shallow embedding of the Python modules [core_analysis],
    [manual_api], [sanity_layer], [performance_tracker] and
    [strategy_evolution], followed by the properties established about
    them.

    Conventions of the embedding.
    - Python [int] is [Z]; Python [float] is idealised as an exact
      rational [Q] (no NaN, no infinities, no rounding error).
    - A [dict] whose keys are data (weights, strategy ids) is a
      [gmap string _]; a [dict] with a fixed schema is a record whose
      optional keys are [option] fields.
    - A raised exception is the [None] of an [option] result (or a named
      error constructor where the source raises a specific error that a
      property talks about).
    - Mutable objects that are shared between caller and callee live in
      an explicit object store. *)

From Stdlib Require Import ZArith QArith Qround Lia Bool Ascii String List Sorted Permutation.
From stdpp Require Import gmap strings list fin_maps.

(* ===================================================================== *)
(** ** Python built-ins used by the sources                              *)
(* ===================================================================== *)

Module Py.

(** [max(a, b)] returns [a] unless [b] is strictly greater. *)
Definition qmax (a b : Q) : Q := if Qlt_le_dec a b then b else a.
(** [min(a, b)] returns [a] unless [b] is strictly smaller. *)
Definition qmin (a b : Q) : Q := if Qlt_le_dec b a then b else a.

(** [int(x)] on a float truncates toward zero. *)
Definition int_of_float (q : Q) : Z :=
  if Qlt_le_dec q 0 then Qceiling q else Qfloor q.

Definition float_of_int (z : Z) : Q := inject_Z z.

(** [round(x)] with one argument: nearest integer, ties to even. *)
Definition round (q : Q) : Z :=
  let f := Qfloor q in
  match Qcompare ((q - inject_Z f) * 2) 1 with
  | Lt => f
  | Gt => (f + 1)%Z
  | Eq => if Z.even f then f else (f + 1)%Z
  end.

(** [round(x, ndigits)]: scale, round to even, scale back. *)
Definition round_to (ndigits : nat) (q : Q) : Q :=
  let scale := inject_Z (10 ^ Z.of_nat ndigits) in
  inject_Z (round (q * scale)) / scale.

Definition sumZ (l : list Z) : Z := foldr Z.add 0%Z l.
Definition sumQ (l : list Q) : Q := foldr Qplus 0%Q l.

(** [abs(x)] on a float. *)
Definition qabs (q : Q) : Q := if Qlt_le_dec q 0 then (- q)%Q else q.

Definition Qltb (a b : Q) : bool := if Qlt_le_dec a b then true else false.
Definition Qleb (a b : Q) : bool := if Qlt_le_dec b a then false else true.

(** [str.upper()] and [str.lower()], on the ASCII range. *)
Definition upper_ascii (c : ascii) : ascii :=
  let n := nat_of_ascii c in
  if ((97 <=? n) && (n <=? 122))%nat then ascii_of_nat (n - 32) else c.
Definition lower_ascii (c : ascii) : ascii :=
  let n := nat_of_ascii c in
  if ((65 <=? n) && (n <=? 90))%nat then ascii_of_nat (n + 32) else c.

Fixpoint map_string (f : ascii -> ascii) (s : string) : string :=
  match s with
  | EmptyString => EmptyString
  | String c s' => String (f c) (map_string f s')
  end.

Definition upper (s : string) : string := map_string upper_ascii s.
Definition lower (s : string) : string := map_string lower_ascii s.

(** [str.isspace] on the ASCII range: tab, newline, vertical tab, form
    feed, carriage return, the four separators 28..31 and the space. *)
Definition is_space (c : ascii) : bool :=
  let n := nat_of_ascii c in
  (((9 <=? n) && (n <=? 13)) || ((28 <=? n) && (n <=? 32)))%nat.

Fixpoint lstrip (s : string) : string :=
  match s with
  | EmptyString => EmptyString
  | String c s' => if is_space c then lstrip s' else s
  end.

Fixpoint rstrip (s : string) : string :=
  match s with
  | EmptyString => EmptyString
  | String c s' =>
      match rstrip s' with
      | EmptyString => if is_space c then EmptyString else String c EmptyString
      | r => String c r
      end
  end.

(** [str.strip()] *)
Definition strip (s : string) : string := rstrip (lstrip s).

(** [sorted(xs, key=...)] and [list.sort(key=...)] are stable: elements
    whose keys compare equal keep their relative order.  [leb a b] is
    "key of a <= key of b". *)
Section StableSort.
Context {A : Type} (leb : A -> A -> bool).

Fixpoint insert_sorted (x : A) (l : list A) : list A :=
  match l with
  | [] => [x]
  | y :: l' => if leb x y then x :: y :: l' else y :: insert_sorted x l'
  end.

Definition sorted (l : list A) : list A := foldr insert_sorted [] l.

End StableSort.

(** String order of [sorted] on [str]: code-point order. *)
Definition str_leb (a b : string) : bool := String.leb a b.

End Py.

(* ===================================================================== *)
(** ** core_analysis.py                                                  *)
(* ===================================================================== *)

Module CoreAnalysis.

Inductive Mode := PRE_EARNINGS | POST_EARNINGS.

Record ComponentScores := {
  trend_momentum : Q;
  fundamentals : Q;
  news_sentiment : Q;
  earnings_context_pre : Q;
  earnings_context_post : Q;
  risk_volatility : Q
}.

Record AnalysisInput := {
  ticker : string;
  mode : Mode;
  current_price : Q;
  scores : ComponentScores
}.

(** The JSON configuration.  Keys read with [config[...]] are record
    fields; [weights] is a dictionary proper (it is summed over all of
    its values and indexed by component name).  The [safety_guards]
    object and its [manual_overrides] are read with [.get] and defaults:
    an absent [disable_score_change_cap] is [false], an absent
    [max_daily_score_change] is [None]. *)
Record ScoreBounds := { bounds_min : Z; bounds_max : Z }.
Record RatingThresholds := { buy_min : Z; hold_min : Z }.
Record TargetPrice := {
  neutral_score : Z;
  return_per_score_point : Q;
  min_return_pct : Q;
  max_return_pct : Q
}.
Record RiskLevelThresholds := { low_risk_min : Q; medium_risk_min : Q }.
Record ReasonGeneration := { top_positive_reasons : nat; top_negative_factors : nat }.
Record SafetyGuards := {
  disable_score_change_cap : bool;
  max_daily_score_change : option Z
}.

Record Config := {
  weights : gmap string Z;
  score_bounds : ScoreBounds;
  rating_thresholds : RatingThresholds;
  target_price : TargetPrice;
  risk_level_thresholds : RiskLevelThresholds;
  reason_generation : ReasonGeneration;
  safety_guards : SafetyGuards
}.

(** Outcome of loading: the configuration, or the [ValueError] that
    [_validate_config] raises, carrying the offending total. *)
Inductive LoadResult :=
| Loaded (config : Config)
| ValueError_weights_must_sum_to_100 (found : Z).

Definition weight_total (w : gmap string Z) : Z :=
  map_fold (fun _ v acc => (v + acc)%Z) 0%Z w.

(** [_validate_config]: [None] when the configuration passes, otherwise
    the error raised.  The weight total is the only thing it inspects. *)
Definition _validate_config (config : Config) : option LoadResult :=
  let total := weight_total (weights config) in
  if (total =? 100)%Z then None
  else Some (ValueError_weights_must_sum_to_100 total).

(** [load_analysis_config], applied to the parsed content of the file. *)
Definition load_analysis_config (parsed : Config) : LoadResult :=
  match _validate_config parsed with
  | Some err => err
  | None => Loaded parsed
  end.

(** [_clamp] at type float and at type int. *)
Definition _clamp (value minimum maximum : Q) : Q :=
  Py.qmax minimum (Py.qmin maximum value).
Definition _clamp_int (value minimum maximum : Z) : Z :=
  Z.max minimum (Z.min maximum value).

Definition _selected_earnings_score (m : Mode) (s : ComponentScores) : Q :=
  match m with
  | PRE_EARNINGS => earnings_context_pre s
  | POST_EARNINGS => earnings_context_post s
  end.

(** The breakdown is an ordered dictionary: the five components in the
    order in which the source declares them. *)
Definition raw_components (analysis_input : AnalysisInput) : list (string * Q) :=
  let s := scores analysis_input in
  [ ("trend_momentum"%string, trend_momentum s);
    ("fundamentals"%string, fundamentals s);
    ("news_sentiment"%string, news_sentiment s);
    ("earnings_context"%string, _selected_earnings_score (mode analysis_input) s);
    ("risk_volatility"%string, risk_volatility s) ].

(** [None] is the [KeyError] of [weights[key]]. *)
Definition calculate_score_breakdown (analysis_input : AnalysisInput) (config : Config)
  : option (list (string * Q)) :=
  let bounds := score_bounds config in
  let clamped_components :=
    map (fun kv : string * Q =>
           (kv.1, _clamp kv.2 (inject_Z (bounds_min bounds)) (inject_Z (bounds_max bounds))))
        (raw_components analysis_input) in
  mapM (fun kv : string * Q =>
          w ← weights config !! kv.1;
          Some (kv.1, (kv.2 * inject_Z w / 100)%Q))
       clamped_components.

Definition calculate_composite_score (score_breakdown : list (string * Q)) (config : Config) : Z :=
  let bounds := score_bounds config in
  let score := Py.round (Py.sumQ (map snd score_breakdown)) in
  _clamp_int score (bounds_min bounds) (bounds_max bounds).

Definition apply_daily_score_change_cap (score : Z) (previous_score : option Z) (config : Config) : Z :=
  match previous_score with
  | None => score
  | Some previous =>
      let guard_cfg := safety_guards config in
      if disable_score_change_cap guard_cfg then score
      else match max_daily_score_change guard_cfg with
           | None => score
           | Some max_change =>
               let lower := (previous - max_change)%Z in
               let upper := (previous + max_change)%Z in
               _clamp_int score lower upper
           end
  end.

Definition map_score_to_rating (score : Z) (config : Config) : string :=
  let thresholds := rating_thresholds config in
  if (buy_min thresholds <=? score)%Z then "BUY"
  else if (hold_min thresholds <=? score)%Z then "HOLD"
  else "SELL".

Definition estimate_target_price (price : Q) (score : Z) (config : Config) : Q * Q :=
  let target_cfg := target_price config in
  let delta_points := (score - neutral_score target_cfg)%Z in
  let expected_return_pct :=
    _clamp (inject_Z delta_points * return_per_score_point target_cfg)%Q
           (min_return_pct target_cfg) (max_return_pct target_cfg) in
  let target := (price * (1 + expected_return_pct / 100))%Q in
  (Py.round_to 2 target, Py.round_to 1 expected_return_pct).

Definition classify_risk_level (risk_volatility_score : Q) (config : Config) : string :=
  let thresholds := risk_level_thresholds config in
  if Py.Qleb (low_risk_min thresholds) risk_volatility_score then "Low"
  else if Py.Qleb (medium_risk_min thresholds) risk_volatility_score then "Medium"
  else "High".

(** [key.replace("_", " ").title()] *)
Definition is_alpha (c : ascii) : bool :=
  let n := nat_of_ascii c in
  (((65 <=? n) && (n <=? 90)) || ((97 <=? n) && (n <=? 122)))%nat.

Fixpoint title_from (prev_alpha : bool) (s : string) : string :=
  match s with
  | EmptyString => EmptyString
  | String c s' =>
      String (if prev_alpha then Py.lower_ascii c else Py.upper_ascii c)
             (title_from (is_alpha c) s')
  end.

Definition underscore_to_space (c : ascii) : ascii :=
  if Ascii.eqb c "_"%char then " "%char else c.

Definition _component_label (component_key : string) : string :=
  title_from false (Py.map_string underscore_to_space component_key).

(** One generated explanation.  The source renders it as text,
    ["<label> contributed +<points:.2f> points"] for a key reason and
    ["Weak <label> contribution (<points:.2f> points)"] for an
    invalidating factor; the embedding keeps the two ingredients. *)
Inductive Explanation :=
| Contributed (label : string) (points : Q)
| WeakContribution (label : string) (points : Q).

Definition descending (a b : string * Q) : bool := Py.Qleb b.2 a.2.
Definition ascending (a b : string * Q) : bool := Py.Qleb a.2 b.2.

Definition build_explanations (score_breakdown : list (string * Q)) (config : Config)
  : list Explanation * list Explanation :=
  let reason_cfg := reason_generation config in
  let ordered := Py.sorted descending score_breakdown in
  let top_positive := take (top_positive_reasons reason_cfg) ordered in
  let top_negative :=
    take (top_negative_factors reason_cfg) (Py.sorted ascending score_breakdown) in
  (map (fun kv : string * Q => Contributed (_component_label kv.1) kv.2) top_positive,
   map (fun kv : string * Q => WeakContribution (_component_label kv.1) kv.2) top_negative).

(** The result dictionary.  [previous_score] and
    [score_before_daily_cap] are keys that are only sometimes present. *)
Record AnalysisResult := {
  r_ticker : string;
  r_mode : Mode;
  r_score : Z;
  r_rating : string;
  r_current_price : Q;
  r_target_price : Q;
  r_expected_return_pct : Q;
  r_risk_level : string;
  r_key_reasons : list Explanation;
  r_invalidating_factors : list Explanation;
  r_previous_score : option Z;
  r_score_before_daily_cap : option Z
}.

Definition analyze_stock (analysis_input : AnalysisInput) (config : Config)
    (previous_score : option Z) : option AnalysisResult :=
  score_breakdown ← calculate_score_breakdown analysis_input config;
  let uncapped_score := calculate_composite_score score_breakdown config in
  let score := apply_daily_score_change_cap uncapped_score previous_score config in
  let rating := map_score_to_rating score config in
  let '(target, expected_return_pct) :=
    estimate_target_price (current_price analysis_input) score config in
  let '(key_reasons, invalidating_factors) := build_explanations score_breakdown config in
  Some {|
    r_ticker := ticker analysis_input;
    r_mode := mode analysis_input;
    r_score := score;
    r_rating := rating;
    r_current_price := Py.round_to 2 (current_price analysis_input);
    r_target_price := target;
    r_expected_return_pct := expected_return_pct;
    r_risk_level := classify_risk_level (risk_volatility (scores analysis_input)) config;
    r_key_reasons := key_reasons;
    r_invalidating_factors := invalidating_factors;
    r_previous_score := previous_score;
    r_score_before_daily_cap :=
      match previous_score with Some _ => Some uncapped_score | None => None end
  |}.

End CoreAnalysis.

(* ===================================================================== *)
(** ** manual_api.py                                                     *)
(* ===================================================================== *)

Module ManualApi.
Import CoreAnalysis.

(** A decoded JSON value, as [json.loads] produces it. *)
Unset Elimination Schemes.
Inductive json :=
| JNull
| JBool (b : bool)
| JInt (z : Z)
| JFloat (q : Q)
| JStr (s : string)
| JList (items : list json)
| JObj (fields : gmap string json).
Set Elimination Schemes.

Record StrategyParameters := {
  risk_tolerance : string;
  time_horizon : string;
  expected_profit_target : string
}.

(** Body of an HTTP answer: [{"error": message}] or the analysis result
    extended with the echoed strategy parameters. *)
Inductive Body :=
| ErrorBody (message : string)
| AnalysisBody (result : AnalysisResult) (strategy_parameters : StrategyParameters).

Definition BAD_REQUEST : Z := 400.
Definition OK : Z := 200.

Definition _error (message : string) : Z * Body := (BAD_REQUEST, ErrorBody message).

Definition is_one_of (v : json) (allowed : list string) : option string :=
  match v with
  | JStr s => if bool_decide (s ∈ allowed) then Some s else None
  | _ => None
  end.

(** [payload.get(key)]: an absent key reads as [None], that is [JNull]. *)
Definition get (payload : gmap string json) (key : string) : json :=
  default JNull (payload !! key).

Definition _validate_mode (payload : gmap string json) : Mode + (Z * Body) :=
  match get payload "mode" with
  | JStr "PRE_EARNINGS" => inl PRE_EARNINGS
  | JStr "POST_EARNINGS" => inl POST_EARNINGS
  | _ => inr (_error "mode must be PRE_EARNINGS or POST_EARNINGS")
  end.

Definition _validate_strategy (payload : gmap string json) : StrategyParameters + (Z * Body) :=
  match get payload "strategy_parameters" with
  | JObj strategy =>
      match is_one_of (get strategy "risk_tolerance") ["low"; "medium"; "high"]%string with
      | None => inr (_error "strategy_parameters.risk_tolerance must be low, medium, or high")
      | Some risk =>
          match is_one_of (get strategy "time_horizon") ["short"; "swing"; "long"]%string with
          | None => inr (_error "strategy_parameters.time_horizon must be short, swing, or long")
          | Some horizon =>
              match get strategy "expected_profit_target" with
              | JStr target =>
                  if String.eqb (Py.strip target) ""
                  then inr (_error "strategy_parameters.expected_profit_target must be a non-empty string")
                  else inl {| risk_tolerance := risk;
                              time_horizon := horizon;
                              expected_profit_target := Py.strip target |}
              | _ => inr (_error "strategy_parameters.expected_profit_target must be a non-empty string")
              end
          end
      end
  | _ => inr (_error "strategy_parameters must be an object")
  end.

Section FloatConversion.

(** [float(s)] on a string [s] follows Python's numeral grammar; the
    embedding is parametric in it.  [None] is the [ValueError]. *)
Variable str_to_float : string -> option Q.

(** [float(v)]; [None] is the [TypeError] or [ValueError] it raises. *)
Definition py_float (v : json) : option Q :=
  match v with
  | JInt z => Some (inject_Z z)
  | JFloat q => Some q
  | JBool b => Some (if b then 1%Q else 0%Q)
  | JStr s => str_to_float s
  | JNull | JList _ | JObj _ => None
  end.

Definition required_scores : list string :=
  [ "trend_momentum"; "fundamentals"; "news_sentiment";
    "earnings_context_pre"; "earnings_context_post"; "risk_volatility" ]%string.

Definition _validate_component_scores (payload : gmap string json)
  : ComponentScores + (Z * Body) :=
  match get payload "component_scores" with
  | JObj scores =>
      let missing := filter (fun field => scores !! field = None) required_scores in
      match missing with
      | _ :: _ =>
          inr (_error ("component_scores missing fields: " ++ String.concat ", " missing))
      | [] =>
          let converted :=
            tm ← py_float (get scores "trend_momentum");
            fu ← py_float (get scores "fundamentals");
            ns ← py_float (get scores "news_sentiment");
            pre ← py_float (get scores "earnings_context_pre");
            post ← py_float (get scores "earnings_context_post");
            rv ← py_float (get scores "risk_volatility");
            Some {| trend_momentum := tm; fundamentals := fu; news_sentiment := ns;
                    earnings_context_pre := pre; earnings_context_post := post;
                    risk_volatility := rv |} in
          match converted with
          | Some component_scores => inl component_scores
          | None => inr (_error "component_scores values must be numeric")
          end
      end
  | _ => inr (_error "component_scores must be an object")
  end.

(** [payload.get("current_price_override", payload.get("current_price"))]:
    the override wins whenever its key is present, even when it is null. *)
Definition _resolve_current_price (payload : gmap string json) : Q + (Z * Body) :=
  let price_value :=
    match payload !! "current_price_override" with
    | Some v => v
    | None => get payload "current_price"
    end in
  match price_value with
  | JNull => inr (_error "current_price_override or current_price is required")
  | _ =>
      match py_float price_value with
      | None => inr (_error "current_price_override/current_price must be numeric")
      | Some price =>
          if Py.Qleb price 0
          then inr (_error "current_price_override/current_price must be > 0")
          else inl price
      end
  end.

Definition validate_manual_request (payload : gmap string json)
  : (AnalysisInput * StrategyParameters) + (Z * Body) :=
  match get payload "ticker" with
  | JStr ticker_text =>
      if String.eqb (Py.strip ticker_text) ""
      then inr (_error "ticker must be a non-empty string")
      else
        match _validate_mode payload with
        | inr mode_error => inr mode_error
        | inl request_mode =>
            match _validate_strategy payload with
            | inr strategy_error => inr strategy_error
            | inl strategy =>
                match _validate_component_scores payload with
                | inr scores_error => inr scores_error
                | inl component_scores =>
                    match _resolve_current_price payload with
                    | inr price_error => inr price_error
                    | inl price =>
                        inl ({| ticker := Py.upper (Py.strip ticker_text);
                                mode := request_mode;
                                current_price := price;
                                scores := component_scores |},
                             strategy)
                    end
                end
            end
        end
  | _ => inr (_error "ticker must be a non-empty string")
  end.

(** [None] stands for an exception escaping from [analyze_stock]. *)
Definition handle_manual_analysis (payload : gmap string json) (config : Config)
  : option (Z * Body) :=
  match validate_manual_request payload with
  | inr err => Some err
  | inl (analysis_input, strategy) =>
      result ← analyze_stock analysis_input config None;
      Some (OK, AnalysisBody result strategy)
  end.

End FloatConversion.

End ManualApi.

(* ===================================================================== *)
(** ** sanity_layer.py                                                   *)
(* ===================================================================== *)

Module SanityLayer.

(** An analysis result as the sanity layer sees it: a dictionary whose
    keys are all read with [.get], so every key may be absent.  The last
    four keys are the overlay that [apply_health_controls] writes;
    [row_base_rating] is [Some None] when the key is present and holds
    Python's [None]. *)
Record Row := {
  row_ticker : option string;
  row_mode : option string;
  row_score : option Z;
  row_rating : option string;
  row_current_price : option Q;
  row_target_price : option Q;
  row_expected_return_pct : option Q;
  row_risk_level : option string;
  row_key_reasons : option (list string);
  row_invalidating_factors : option (list string);
  row_previous_score : option Z;
  row_score_before_daily_cap : option Z;
  row_health_score : option Z;
  row_sanity_guard_active : option bool;
  row_base_rating : option (option string);
  row_sanity_adjustment_reason : option string
}.

(** [row[key] = value] for the keys that the module assigns. *)
Definition set_health_score (v : Z) (r : Row) : Row :=
  {| row_ticker := row_ticker r; row_mode := row_mode r; row_score := row_score r;
     row_rating := row_rating r; row_current_price := row_current_price r;
     row_target_price := row_target_price r;
     row_expected_return_pct := row_expected_return_pct r;
     row_risk_level := row_risk_level r; row_key_reasons := row_key_reasons r;
     row_invalidating_factors := row_invalidating_factors r;
     row_previous_score := row_previous_score r;
     row_score_before_daily_cap := row_score_before_daily_cap r;
     row_health_score := Some v;
     row_sanity_guard_active := row_sanity_guard_active r;
     row_base_rating := row_base_rating r;
     row_sanity_adjustment_reason := row_sanity_adjustment_reason r |}.

Definition set_sanity_guard_active (v : bool) (r : Row) : Row :=
  {| row_ticker := row_ticker r; row_mode := row_mode r; row_score := row_score r;
     row_rating := row_rating r; row_current_price := row_current_price r;
     row_target_price := row_target_price r;
     row_expected_return_pct := row_expected_return_pct r;
     row_risk_level := row_risk_level r; row_key_reasons := row_key_reasons r;
     row_invalidating_factors := row_invalidating_factors r;
     row_previous_score := row_previous_score r;
     row_score_before_daily_cap := row_score_before_daily_cap r;
     row_health_score := row_health_score r;
     row_sanity_guard_active := Some v;
     row_base_rating := row_base_rating r;
     row_sanity_adjustment_reason := row_sanity_adjustment_reason r |}.

Definition set_base_rating (v : option string) (r : Row) : Row :=
  {| row_ticker := row_ticker r; row_mode := row_mode r; row_score := row_score r;
     row_rating := row_rating r; row_current_price := row_current_price r;
     row_target_price := row_target_price r;
     row_expected_return_pct := row_expected_return_pct r;
     row_risk_level := row_risk_level r; row_key_reasons := row_key_reasons r;
     row_invalidating_factors := row_invalidating_factors r;
     row_previous_score := row_previous_score r;
     row_score_before_daily_cap := row_score_before_daily_cap r;
     row_health_score := row_health_score r;
     row_sanity_guard_active := row_sanity_guard_active r;
     row_base_rating := Some v;
     row_sanity_adjustment_reason := row_sanity_adjustment_reason r |}.

Definition set_rating (v : string) (r : Row) : Row :=
  {| row_ticker := row_ticker r; row_mode := row_mode r; row_score := row_score r;
     row_rating := Some v; row_current_price := row_current_price r;
     row_target_price := row_target_price r;
     row_expected_return_pct := row_expected_return_pct r;
     row_risk_level := row_risk_level r; row_key_reasons := row_key_reasons r;
     row_invalidating_factors := row_invalidating_factors r;
     row_previous_score := row_previous_score r;
     row_score_before_daily_cap := row_score_before_daily_cap r;
     row_health_score := row_health_score r;
     row_sanity_guard_active := row_sanity_guard_active r;
     row_base_rating := row_base_rating r;
     row_sanity_adjustment_reason := row_sanity_adjustment_reason r |}.

Definition set_sanity_adjustment_reason (v : string) (r : Row) : Row :=
  {| row_ticker := row_ticker r; row_mode := row_mode r; row_score := row_score r;
     row_rating := row_rating r; row_current_price := row_current_price r;
     row_target_price := row_target_price r;
     row_expected_return_pct := row_expected_return_pct r;
     row_risk_level := row_risk_level r; row_key_reasons := row_key_reasons r;
     row_invalidating_factors := row_invalidating_factors r;
     row_previous_score := row_previous_score r;
     row_score_before_daily_cap := row_score_before_daily_cap r;
     row_health_score := row_health_score r;
     row_sanity_guard_active := row_sanity_guard_active r;
     row_base_rating := row_base_rating r;
     row_sanity_adjustment_reason := Some v |}.

(** [config/sanity_rules.json] *)
Record RatingThresholds := { buy_min : Z; hold_min : Z }.
Record Rules := {
  rating_thresholds : RatingThresholds;
  target_return_tolerance_pct : Q
}.
Record HealthScoreCfg := {
  per_violation : Z;        (* health_score.penalties.per_violation *)
  violation_cap : Z
}.
Record BehaviorControls := { block_buy_below_health_score : Z }.
Record Config := {
  rules : Rules;
  health_score : HealthScoreCfg;
  behavior_controls : BehaviorControls
}.

(** The violation messages.  The source builds them as text; each
    constructor carries what the text interpolates. *)
Inductive Violation :=
| rating_mismatch (expected : string) (score : Z) (got : string)
| invalid_current_price
| target_return_mismatch (implied expected : Q)
| high_risk_buy
| missing_key_reasons
| missing_invalidating_factors.

Definition _check_rating_alignment (row : Row) (cfg : Rules) : list Violation :=
  let thresholds := rating_thresholds cfg in
  let score := default 0%Z (row_score row) in
  let rating := Py.upper (default ""%string (row_rating row)) in
  let expected :=
    if (buy_min thresholds <=? score)%Z then "BUY"%string
    else if (hold_min thresholds <=? score)%Z then "HOLD"%string
    else "SELL"%string in
  if String.eqb rating expected then []
  else [rating_mismatch expected score rating].

Definition _check_target_consistency (row : Row) (tolerance_pct : Q) : list Violation :=
  let current_price := default 0%Q (row_current_price row) in
  let target_price := default 0%Q (row_target_price row) in
  let expected_return_pct := default 0%Q (row_expected_return_pct row) in
  if Py.Qleb current_price 0 then [invalid_current_price]
  else
    let implied_return_pct := ((target_price / current_price - 1) * 100)%Q in
    if Py.Qltb tolerance_pct (Py.qabs (implied_return_pct - expected_return_pct))
    then [target_return_mismatch implied_return_pct expected_return_pct]
    else [].

(** [not row.get(key)] for a key holding a list: absent or empty. *)
Definition is_falsy {A} (v : option (list A)) : bool :=
  match v with
  | None | Some [] => true
  | Some (_ :: _) => false
  end.

(** The violations collected for one result, in the order of the checks. *)
Definition violations_of (row : Row) (rules_cfg : Rules) : list Violation :=
  _check_rating_alignment row rules_cfg
  ++ _check_target_consistency row (target_return_tolerance_pct rules_cfg)
  ++ (if String.eqb (Py.lower (default ""%string (row_risk_level row))) "high"
         && String.eqb (Py.upper (default ""%string (row_rating row))) "BUY"
      then [high_risk_buy] else [])
  ++ (if is_falsy (row_key_reasons row) then [missing_key_reasons] else [])
  ++ (if is_falsy (row_invalidating_factors row) then [missing_invalidating_factors] else []).

Record StockSanity := {
  ps_ticker : string;
  ps_violations : list Violation;
  ps_penalty : Z
}.

Record SanityReport := {
  rep_health_score : Z;
  rep_max_health_score : Z;
  rep_total_penalty : Z;
  rep_violation_count : Z;
  rep_per_stock : list StockSanity
}.

(** One turn of the loop of [evaluate_daily_sanity]; the state is
    [(per_stock, total_penalty)]. *)
Definition sanity_step (config : Config) (state : list StockSanity * Z) (row : Row)
  : list StockSanity * Z :=
  let '(per_stock, total_penalty) := state in
  let ticker := default "UNKNOWN"%string (row_ticker row) in
  let violations := violations_of row (rules config) in
  let penalty :=
    (Z.min (Z.of_nat (length violations)) (violation_cap (health_score config))
     * per_violation (health_score config))%Z in
  (per_stock ++ [ {| ps_ticker := ticker; ps_violations := violations; ps_penalty := penalty |} ],
   (total_penalty + penalty)%Z).

Definition evaluate_daily_sanity (analysis_results : list Row) (config : Config) : SanityReport :=
  let '(per_stock, total_penalty) := fold_left (sanity_step config) analysis_results ([], 0%Z) in
  {| rep_health_score := Z.max 0 (100 - total_penalty);
     rep_max_health_score := 100;
     rep_total_penalty := total_penalty;
     rep_violation_count :=
       Py.sumZ (map (fun item => Z.of_nat (length (ps_violations item))) per_stock);
     rep_per_stock := per_stock |}.

(** *** The object store

    [apply_health_controls] receives a list of references to dictionary
    objects and builds new dictionaries; which objects it writes to is
    what matters, so dictionaries live in a store and are named by their
    address. *)
Abbreviation loc := nat (only parsing).
Abbreviation store := (list Row) (only parsing).

(** [dict(row)]: a new object holding a copy of the entries. *)
Definition alloc (h : store) (r : Row) : store * loc := (h ++ [r], length h).
(** [obj[key] = value] through a setter. *)
Definition setitem (h : store) (l : loc) (f : Row -> Row) : store := alter f l h.

Record Controls := {
  health_guard_active : bool;
  buy_recommendations_downgraded : Z;
  policy_block_buy_below_health_score : Z
}.

(** [row.get("rating") == "BUY"] *)
Definition rating_is_BUY (r : Row) : bool :=
  match row_rating r with
  | Some s => String.eqb s "BUY"
  | None => false
  end.

(** One turn of the loop of [apply_health_controls] on the reference
    [row]; the state is the store, the list [adjusted] and the counter.
    [None] is a dangling reference. *)
Definition controls_step (hs : Z) (guard_active : bool)
    (state : store * list loc * Z) (row : loc) : option (store * list loc * Z) :=
  let '(h, adjusted, adjusted_count) := state in
  r0 ← h !! row;
  let '(h, enriched) := alloc h r0 in
  let h := setitem h enriched (set_health_score hs) in
  let h := setitem h enriched (set_sanity_guard_active guard_active) in
  r1 ← h !! row;
  let h := setitem h enriched (set_base_rating (row_rating r1)) in
  r2 ← h !! row;
  if guard_active && rating_is_BUY r2 then
    let h := setitem h enriched (set_rating "HOLD") in
    let h := setitem h enriched (set_sanity_adjustment_reason "health_guard_blocked_buy") in
    Some (h, adjusted ++ [enriched], (adjusted_count + 1)%Z)
  else
    Some (h, adjusted ++ [enriched], adjusted_count).

Fixpoint controls_loop (hs : Z) (guard_active : bool)
    (rows : list loc) (state : store * list loc * Z) : option (store * list loc * Z) :=
  match rows with
  | [] => Some state
  | row :: rest =>
      state' ← controls_step hs guard_active state row;
      controls_loop hs guard_active rest state'
  end.

(** Returns the store after the call, the list [adjusted] and
    [controls]. *)
Definition apply_health_controls (h : store) (analysis_results : list loc)
    (sanity_report : SanityReport) (config : Config)
  : option (store * list loc * Controls) :=
  let control_cfg := behavior_controls config in
  let hs := rep_health_score sanity_report in
  let guard_active := (hs <? block_buy_below_health_score control_cfg)%Z in
  '(h', adjusted, adjusted_count) ← controls_loop hs guard_active analysis_results (h, [], 0%Z);
  Some (h', adjusted,
        {| health_guard_active := guard_active;
           buy_recommendations_downgraded := adjusted_count;
           policy_block_buy_below_health_score := block_buy_below_health_score control_cfg |}).

(** *** Health history

    Dates are the strings [YYYY-MM-DD] that [date.fromisoformat] reads;
    [_parse_date] returns [None] where Python raises [ValueError]. *)
Record date := { year : Z; month : Z; day : Z }.

Definition digit (c : ascii) : option Z :=
  let n := Z.of_nat (nat_of_ascii c) in
  if ((48 <=? n) && (n <=? 57))%Z then Some (n - 48)%Z else None.

Definition is_leap (y : Z) : bool :=
  ((y mod 4 =? 0) && (negb (y mod 100 =? 0) || (y mod 400 =? 0)))%Z.

Definition days_in_month (y m : Z) : Z :=
  match m with
  | 1 | 3 | 5 | 7 | 8 | 10 | 12 => 31
  | 4 | 6 | 9 | 11 => 30
  | 2 => if is_leap y then 29 else 28
  | _ => 0
  end%Z.

Definition valid_date (d : date) : bool :=
  ((1 <=? year d) && (year d <=? 9999) && (1 <=? month d) && (month d <=? 12)
   && (1 <=? day d) && (day d <=? days_in_month (year d) (month d)))%Z.

Definition _parse_date (value : string) : option date :=
  match list_ascii_of_string value with
  | [y1; y2; y3; y4; s1; m1; m2; s2; d1; d2] =>
      if Ascii.eqb s1 "-" && Ascii.eqb s2 "-" then
        a ← digit y1; b ← digit y2; c ← digit y3; d ← digit y4;
        e ← digit m1; f ← digit m2; g ← digit d1; h ← digit d2;
        let parsed := {| year := (a * 1000 + b * 100 + c * 10 + d)%Z;
                         month := (e * 10 + f)%Z;
                         day := (g * 10 + h)%Z |} in
        if valid_date parsed then Some parsed else None
      else None
  | _ => None
  end.

(** Order of [datetime.date]: by year, then month, then day. *)
Definition date_leb (a b : date) : bool :=
  ((year a <? year b)
   || ((year a =? year b)
       && ((month a <? month b) || ((month a =? month b) && (day a <=? day b)))))%Z.

(** One snapshot of the history file.  [he_date] is optional because
    the file is read back as arbitrary JSON: the filter reads it with
    [row.get("date")], the sort key with [row["date"]]. *)
Record HistoryEntry := {
  he_date : option string;
  he_health_score : Z;
  he_violation_count : Z;
  he_stock_count : nat;
  he_violations_by_ticker : list (string * list Violation)
}.

Definition has_date (report_date : string) (row : HistoryEntry) : bool :=
  match he_date row with
  | Some d => String.eqb d report_date
  | None => false
  end.

Definition new_entry (report_date : string) (analysis_results : list Row)
    (sanity_report : SanityReport) : HistoryEntry :=
  {| he_date := Some report_date;
     he_health_score := rep_health_score sanity_report;
     he_violation_count := rep_violation_count sanity_report;
     he_stock_count := length analysis_results;
     he_violations_by_ticker :=
       map (fun item => (ps_ticker item, ps_violations item)) (rep_per_stock sanity_report) |}.

(** The sort key of [history.sort(key=lambda row: _parse_date(row["date"]))];
    [None] is the [KeyError] or [ValueError] raised while computing it. *)
Definition sort_key (row : HistoryEntry) : option (date * HistoryEntry) :=
  d ← he_date row;
  k ← _parse_date d;
  Some (k, row).

Definition by_date (a b : date * HistoryEntry) : bool := date_leb a.1 b.1.

(** [update_health_history].  [file] is the content of [history_path]
    before the call ([None] when the file does not exist).  The result is
    the content written to the file, which is also the list returned;
    [None] is an exception, raised before anything is written. *)
Definition update_health_history (file : option (list HistoryEntry)) (report_date : string)
    (analysis_results : list Row) (sanity_report : SanityReport)
  : option (list HistoryEntry) :=
  let history := default [] file in
  _ ← _parse_date report_date;
  let entry := new_entry report_date analysis_results sanity_report in
  let history := filter (fun row => negb (has_date report_date row)) history in
  let history := history ++ [entry] in
  keyed ← mapM sort_key history;
  Some (snd <$> Py.sorted by_date keyed).

End SanityLayer.

(* ===================================================================== *)
(** ** performance_tracker.py                                            *)
(* ===================================================================== *)

Module PerformanceTracker.

Record OutcomeRecord := {
  strategy_id : string;
  timestamp : string;
  returns_pct : gmap string Q
}.

(** [config/evolution_config.json] *)
Record Degradation := {
  window_size : Z;
  min_trades_required : Z;
  win_rate_threshold : Q;
  benchmark_return_by_horizon : gmap string Q
}.
Record WeightAdjustment := {
  step_pct : Z;
  max_total_adjustment_pct : Z;
  min_weight : Z;
  max_weight : Z
}.
Record EvolutionConfig := {
  tracking_horizons : list string;
  degradation : Degradation;
  strategy_to_weight_key : gmap string string;
  weight_adjustment : WeightAdjustment
}.

Record HorizonMetrics := {
  trade_count : nat;
  win_rate : Q;
  avg_return_pct : Q;
  benchmark_return_pct : Q
}.

(** The two reasons for degradation; the source renders them as text. *)
Inductive DegradedReason :=
| win_rate_below_threshold (horizon : string) (rate threshold : Q)
| avg_return_below_benchmark (horizon : string) (avg benchmark : Q).

Record StrategySummary := {
  sum_strategy_id : string;
  metrics : gmap string HorizonMetrics;
  degraded : bool;
  degraded_reasons : list DegradedReason
}.

(** [grouped[record.strategy_id].append(record)] on a [defaultdict(list)] *)
Definition group_step (grouped : gmap string (list OutcomeRecord)) (record : OutcomeRecord)
  : gmap string (list OutcomeRecord) :=
  <[strategy_id record := default [] (grouped !! strategy_id record) ++ [record]]> grouped.

Definition group_by_strategy (outcomes : list OutcomeRecord) : gmap string (list OutcomeRecord) :=
  fold_left group_step outcomes ∅.

(** [sorted(d)] on a dictionary with string keys: its keys, ascending. *)
Definition sorted_keys {V} (d : gmap string V) : list string :=
  Py.sorted Py.str_leb (fst <$> map_to_list d).

Definition by_timestamp (a b : OutcomeRecord) : bool :=
  Py.str_leb (timestamp a) (timestamp b).

(** [xs[-n:]] for an integer [n]: the last [n] elements when [n] is
    positive, everything when [n] is zero, and [xs[|n|:]] when negative. *)
Definition last_n {A} (n : Z) (xs : list A) : list A :=
  if (0 <? n)%Z then drop (length xs - Z.to_nat n) xs
  else drop (Z.to_nat (- n)) xs.

(** [statistics.mean]; called on non-empty data only. *)
Definition mean (values : list Q) : Q :=
  (Py.sumQ values / inject_Z (Z.of_nat (length values)))%Q.

(** One turn of the loop over the tracked horizons; the state is
    [(horizon_metrics, degraded_reasons)].  [None] is the [KeyError] of a
    horizon without benchmark, or the [ZeroDivisionError] of an empty
    sample that is not below [min_trades_required]. *)
Definition horizon_step (degradation_cfg : Degradation) (windowed : list OutcomeRecord)
    (state : gmap string HorizonMetrics * list DegradedReason) (horizon : string)
  : option (gmap string HorizonMetrics * list DegradedReason) :=
  let '(horizon_metrics, reasons) := state in
  let values := omap (fun item => returns_pct item !! horizon) windowed in
  if (Z.of_nat (length values) <? min_trades_required degradation_cfg)%Z then
    benchmark ← benchmark_return_by_horizon degradation_cfg !! horizon;
    Some (<[horizon := {| trade_count := length values; win_rate := 0; avg_return_pct := 0;
                          benchmark_return_pct := benchmark |}]> horizon_metrics,
          reasons)
  else
    match values with
    | [] => None
    | _ :: _ =>
        let wins := length (filter (fun value => Py.Qltb 0 value = true) values) in
        let rate := (inject_Z (Z.of_nat wins) / inject_Z (Z.of_nat (length values)))%Q in
        let avg_return := mean values in
        benchmark ← benchmark_return_by_horizon degradation_cfg !! horizon;
        let reasons :=
          if Py.Qltb rate (win_rate_threshold degradation_cfg)
          then reasons ++ [win_rate_below_threshold horizon rate (win_rate_threshold degradation_cfg)]
          else reasons in
        let reasons :=
          if Py.Qltb avg_return benchmark
          then reasons ++ [avg_return_below_benchmark horizon avg_return benchmark]
          else reasons in
        Some (<[horizon := {| trade_count := length values;
                              win_rate := Py.round_to 4 rate;
                              avg_return_pct := Py.round_to 4 avg_return;
                              benchmark_return_pct := benchmark |}]> horizon_metrics,
              reasons)
    end.

Fixpoint horizon_loop (degradation_cfg : Degradation) (windowed : list OutcomeRecord)
    (horizons : list string) (state : gmap string HorizonMetrics * list DegradedReason)
  : option (gmap string HorizonMetrics * list DegradedReason) :=
  match horizons with
  | [] => Some state
  | horizon :: rest =>
      state' ← horizon_step degradation_cfg windowed state horizon;
      horizon_loop degradation_cfg windowed rest state'
  end.

(** The summary of one strategy from its outcome records. *)
Definition summarize_one (config : EvolutionConfig) (sid : string) (records : list OutcomeRecord)
  : option StrategySummary :=
  let degradation_cfg := degradation config in
  let ordered := Py.sorted by_timestamp records in
  let windowed := last_n (window_size degradation_cfg) ordered in
  '(horizon_metrics, reasons) ←
     horizon_loop degradation_cfg windowed (tracking_horizons config) (∅, []);
  Some {| sum_strategy_id := sid;
          metrics := horizon_metrics;
          degraded := negb (Nat.eqb (length reasons) 0);
          degraded_reasons := reasons |}.

Fixpoint summary_loop (config : EvolutionConfig) (grouped : gmap string (list OutcomeRecord))
    (ids : list string) (summary : gmap string StrategySummary)
  : option (gmap string StrategySummary) :=
  match ids with
  | [] => Some summary
  | sid :: rest =>
      row ← summarize_one config sid (default [] (grouped !! sid));
      summary_loop config grouped rest (<[sid := row]> summary)
  end.

Definition summarize_strategy_performance (outcomes : list OutcomeRecord) (config : EvolutionConfig)
  : option (gmap string StrategySummary) :=
  let grouped := group_by_strategy outcomes in
  summary_loop config grouped (sorted_keys grouped) ∅.

End PerformanceTracker.

(* ===================================================================== *)
(** ** strategy_evolution.py                                             *)
(* ===================================================================== *)

Module StrategyEvolution.
Import PerformanceTracker.

Record WeightChange := {
  wc_strategy_id : string;
  weight_key : string;
  old_weight : Z;
  new_weight : Z;
  reason : string
}.

Definition sum_values (d : gmap string Z) : Z :=
  map_fold (fun _ v acc => (v + acc)%Z) 0%Z d.

(** Sort key [(-fraction, key)] of [_round_preserve_total], as the
    order on pairs [(key, fraction)]. *)
Definition by_fraction_then_key (a b : string * Q) : bool :=
  Py.Qltb b.2 a.2 || (Qeq_bool a.2 b.2 && Py.str_leb a.1 b.1).

(** One turn of the distribution loop: [result[fractions[index % n][0]] += 1]. *)
Definition distribute_step (fractions : list (string * Q)) (result : gmap string Z) (index : nat)
  : gmap string Z :=
  match fractions !! (index mod length fractions)%nat with
  | Some (k, _) => alter Z.succ k result
  | None => result
  end.

Definition _round_preserve_total (values : gmap string Q) (total : Z) : gmap string Z :=
  let floors := Py.int_of_float <$> values in
  let remainder := (total - sum_values floors)%Z in
  let fractions :=
    Py.sorted by_fraction_then_key
      ((fun kv : string * Q => (kv.1, (kv.2 - inject_Z (Py.int_of_float kv.2))%Q))
         <$> map_to_list values) in
  match fractions with
  | [] => floors
  | _ :: _ =>
      fold_left (distribute_step fractions) (seq 0 (Z.to_nat (Z.max 0 remainder))) floors
  end.

(** State of the adjustment loop of [evolve_weights]. *)
Record LoopState := {
  candidate : gmap string Q;
  changes : list WeightChange;
  total_shift : Z
}.

(** The body of the loop for one strategy, after the [break] test.
    [None] is a [KeyError]: the strategy's weight key is not a key of the
    weights. *)
Definition evolve_step (performance_summary : gmap string StrategySummary)
    (config : EvolutionConfig) (st : LoopState) (sid : string) : option LoopState :=
  let adjust_cfg := weight_adjustment config in
  let step := step_pct adjust_cfg in
  key ← strategy_to_weight_key config !! sid;
  current ← candidate st !! key;
  let old := Py.int_of_float current in
  let '(new, why) :=
    match performance_summary !! sid with
    | Some row =>
        if degraded row
        then (Z.max (min_weight adjust_cfg) (old - step), "degraded performance detected"%string)
        else (Z.min (max_weight adjust_cfg) (old + step), "relative outperformance detected"%string)
    | None => (old, "insufficient data"%string)
    end in
  if (new =? old)%Z then Some st
  else Some {| candidate := <[key := Py.float_of_int new]> (candidate st);
               changes := changes st ++ [ {| wc_strategy_id := sid; weight_key := key;
                                             old_weight := old; new_weight := new;
                                             reason := why |} ];
               total_shift := (total_shift st + Z.abs (new - old))%Z |}.

(** [for strategy_id in sorted(mapping)], with its [break]. *)
Fixpoint evolve_loop (performance_summary : gmap string StrategySummary)
    (config : EvolutionConfig) (ids : list string) (st : LoopState) : option LoopState :=
  match ids with
  | [] => Some st
  | sid :: rest =>
      if (max_total_adjustment_pct (weight_adjustment config) <=? total_shift st)%Z
      then Some st
      else
        st' ← evolve_step performance_summary config st sid;
        evolve_loop performance_summary config rest st'
  end.

(** The state in which the loop of [evolve_weights] ends. *)
Definition adjust (current_weights : gmap string Z)
    (performance_summary : gmap string StrategySummary) (config : EvolutionConfig)
  : option LoopState :=
  evolve_loop performance_summary config (sorted_keys (strategy_to_weight_key config))
    {| candidate := Py.float_of_int <$> current_weights; changes := []; total_shift := 0 |}.

Definition evolve_weights (current_weights : gmap string Z)
    (performance_summary : gmap string StrategySummary) (config : EvolutionConfig)
  : option (gmap string Z * list WeightChange) :=
  st ← adjust current_weights performance_summary config;
  Some (_round_preserve_total (candidate st) 100, changes st).

End StrategyEvolution.

(* ===================================================================== *)
(** ** Concrete configurations and inputs                                *)
(* ===================================================================== *)

Module Examples.

(** The five components and their weights as the strategy-evolution
    tests use them. *)
Definition default_weights : gmap string Z :=
  list_to_map [ ("trend_momentum"%string, 25%Z); ("fundamentals"%string, 25%Z);
                ("news_sentiment"%string, 20%Z); ("earnings_context"%string, 15%Z);
                ("risk_volatility"%string, 15%Z) ].

Definition analysis_config : CoreAnalysis.Config := {|
  CoreAnalysis.weights := default_weights;
  CoreAnalysis.score_bounds := {| CoreAnalysis.bounds_min := 0; CoreAnalysis.bounds_max := 100 |};
  CoreAnalysis.rating_thresholds := {| CoreAnalysis.buy_min := 65; CoreAnalysis.hold_min := 45 |};
  CoreAnalysis.target_price :=
    {| CoreAnalysis.neutral_score := 50; CoreAnalysis.return_per_score_point := 0.4;
       CoreAnalysis.min_return_pct := -20; CoreAnalysis.max_return_pct := 25 |};
  CoreAnalysis.risk_level_thresholds :=
    {| CoreAnalysis.low_risk_min := 70; CoreAnalysis.medium_risk_min := 40 |};
  CoreAnalysis.reason_generation :=
    {| CoreAnalysis.top_positive_reasons := 3; CoreAnalysis.top_negative_factors := 2 |};
  CoreAnalysis.safety_guards :=
    {| CoreAnalysis.disable_score_change_cap := false;
       CoreAnalysis.max_daily_score_change := Some 10%Z |}
|}.

(** Same weights, but thresholds with [buy_min <= hold_min]. *)
Definition inverted_thresholds_config : CoreAnalysis.Config := {|
  CoreAnalysis.weights := default_weights;
  CoreAnalysis.score_bounds := CoreAnalysis.score_bounds analysis_config;
  CoreAnalysis.rating_thresholds := {| CoreAnalysis.buy_min := 45; CoreAnalysis.hold_min := 65 |};
  CoreAnalysis.target_price := CoreAnalysis.target_price analysis_config;
  CoreAnalysis.risk_level_thresholds := CoreAnalysis.risk_level_thresholds analysis_config;
  CoreAnalysis.reason_generation := CoreAnalysis.reason_generation analysis_config;
  CoreAnalysis.safety_guards := CoreAnalysis.safety_guards analysis_config
|}.

(** Weights that sum to 90. *)
Definition short_weights_config : CoreAnalysis.Config := {|
  CoreAnalysis.weights := <["trend_momentum"%string := 15%Z]> default_weights;
  CoreAnalysis.score_bounds := CoreAnalysis.score_bounds analysis_config;
  CoreAnalysis.rating_thresholds := CoreAnalysis.rating_thresholds analysis_config;
  CoreAnalysis.target_price := CoreAnalysis.target_price analysis_config;
  CoreAnalysis.risk_level_thresholds := CoreAnalysis.risk_level_thresholds analysis_config;
  CoreAnalysis.reason_generation := CoreAnalysis.reason_generation analysis_config;
  CoreAnalysis.safety_guards := CoreAnalysis.safety_guards analysis_config
|}.

(** The input of [test_daily_score_change_cap_applies]: every component
    at 100. *)
Definition all_100_input : CoreAnalysis.AnalysisInput := {|
  CoreAnalysis.ticker := "AAPL";
  CoreAnalysis.mode := CoreAnalysis.PRE_EARNINGS;
  CoreAnalysis.current_price := 100;
  CoreAnalysis.scores :=
    {| CoreAnalysis.trend_momentum := 100; CoreAnalysis.fundamentals := 100;
       CoreAnalysis.news_sentiment := 100; CoreAnalysis.earnings_context_pre := 100;
       CoreAnalysis.earnings_context_post := 100; CoreAnalysis.risk_volatility := 100 |}
|}.

(** The payload of [test_manual_api]. *)
Definition manual_payload : gmap string ManualApi.json :=
  list_to_map [
    ("ticker"%string, ManualApi.JStr "AAPL");
    ("mode"%string, ManualApi.JStr "PRE_EARNINGS");
    ("current_price_override"%string, ManualApi.JFloat 195.2);
    ("strategy_parameters"%string,
      ManualApi.JObj (list_to_map [
        ("risk_tolerance"%string, ManualApi.JStr "medium");
        ("time_horizon"%string, ManualApi.JStr "swing");
        ("expected_profit_target"%string, ManualApi.JStr "10%") ]));
    ("component_scores"%string,
      ManualApi.JObj (list_to_map [
        ("trend_momentum"%string, ManualApi.JInt 78);
        ("fundamentals"%string, ManualApi.JInt 81);
        ("news_sentiment"%string, ManualApi.JInt 72);
        ("earnings_context_pre"%string, ManualApi.JInt 75);
        ("earnings_context_post"%string, ManualApi.JInt 60);
        ("risk_volatility"%string, ManualApi.JInt 66) ])) ].

(** A string-to-float conversion that rejects every string; the
    payloads above carry numbers, not numerals in strings. *)
Definition no_numeral_strings (s : string) : option Q := None.

Definition manual_input : CoreAnalysis.AnalysisInput := {|
  CoreAnalysis.ticker := "AAPL";
  CoreAnalysis.mode := CoreAnalysis.PRE_EARNINGS;
  CoreAnalysis.current_price := 195.2;
  CoreAnalysis.scores :=
    {| CoreAnalysis.trend_momentum := inject_Z 78; CoreAnalysis.fundamentals := inject_Z 81;
       CoreAnalysis.news_sentiment := inject_Z 72; CoreAnalysis.earnings_context_pre := inject_Z 75;
       CoreAnalysis.earnings_context_post := inject_Z 60; CoreAnalysis.risk_volatility := inject_Z 66 |}
|}.

Definition manual_strategy : ManualApi.StrategyParameters := {|
  ManualApi.risk_tolerance := "medium";
  ManualApi.time_horizon := "swing";
  ManualApi.expected_profit_target := "10%"
|}.

(** Sanity rules, with the block threshold of [test_sanity_layer]. *)
Definition sanity_config : SanityLayer.Config := {|
  SanityLayer.rules :=
    {| SanityLayer.rating_thresholds := {| SanityLayer.buy_min := 65; SanityLayer.hold_min := 45 |};
       SanityLayer.target_return_tolerance_pct := 0.5 |};
  SanityLayer.health_score := {| SanityLayer.per_violation := 5; SanityLayer.violation_cap := 3 |};
  SanityLayer.behavior_controls := {| SanityLayer.block_buy_below_health_score := 100 |}
|}.

Definition make_row (ticker : string) (score : Z) (rating : string) (price target ret : Q)
    (risk : string) (reasons factors : list string) : SanityLayer.Row := {|
  SanityLayer.row_ticker := Some ticker; SanityLayer.row_mode := None;
  SanityLayer.row_score := Some score; SanityLayer.row_rating := Some rating;
  SanityLayer.row_current_price := Some price; SanityLayer.row_target_price := Some target;
  SanityLayer.row_expected_return_pct := Some ret; SanityLayer.row_risk_level := Some risk;
  SanityLayer.row_key_reasons := Some reasons;
  SanityLayer.row_invalidating_factors := Some factors;
  SanityLayer.row_previous_score := None; SanityLayer.row_score_before_daily_cap := None;
  SanityLayer.row_health_score := None; SanityLayer.row_sanity_guard_active := None;
  SanityLayer.row_base_rating := None; SanityLayer.row_sanity_adjustment_reason := None
|}.

(** The two results of [test_daily_sanity_and_health_control]. *)
Definition row_ABCD : SanityLayer.Row :=
  make_row "ABCD" 72 "BUY" 100 110 10 "High" ["x"%string] ["y"%string].
Definition row_EFGH : SanityLayer.Row :=
  make_row "EFGH" 60 "BUY" 200 180 (-10) "Medium" [] [].

Definition batch : list SanityLayer.Row := [row_ABCD; row_EFGH].
Definition batch_report : SanityLayer.SanityReport :=
  SanityLayer.evaluate_daily_sanity batch sanity_config.

(** A stored history with two snapshots, not in date order. *)
Definition stored_history : list SanityLayer.HistoryEntry :=
  [ SanityLayer.new_entry "2026-01-20" batch batch_report;
    SanityLayer.new_entry "2026-01-10" [row_ABCD] batch_report ].

(** Evolution settings: five strategies, each steering the weight of
    the same name. *)
Definition identity_mapping : gmap string string :=
  list_to_map (map (fun s : string => (s, s))
    [ "trend_momentum"; "fundamentals"; "news_sentiment";
      "earnings_context"; "risk_volatility" ]%string).

Definition evolution_config (step max_total : Z) : PerformanceTracker.EvolutionConfig := {|
  PerformanceTracker.tracking_horizons := ["1d"; "5d"; "20d"]%string;
  PerformanceTracker.degradation :=
    {| PerformanceTracker.window_size := 20;
       PerformanceTracker.min_trades_required := 5;
       PerformanceTracker.win_rate_threshold := 0.5;
       PerformanceTracker.benchmark_return_by_horizon :=
         list_to_map [ ("1d"%string, 0.1%Q); ("5d"%string, 0.5%Q); ("20d"%string, 1.5%Q) ] |};
  PerformanceTracker.strategy_to_weight_key := identity_mapping;
  PerformanceTracker.weight_adjustment :=
    {| PerformanceTracker.step_pct := step;
       PerformanceTracker.max_total_adjustment_pct := max_total;
       PerformanceTracker.min_weight := 5;
       PerformanceTracker.max_weight := 40 |}
|}.

Definition summary_row (sid : string) (is_degraded : bool) : PerformanceTracker.StrategySummary := {|
  PerformanceTracker.sum_strategy_id := sid;
  PerformanceTracker.metrics := ∅;
  PerformanceTracker.degraded := is_degraded;
  PerformanceTracker.degraded_reasons := []
|}.

(** One strategy, not degraded. *)
Definition one_healthy_strategy : gmap string PerformanceTracker.StrategySummary :=
  {[ "trend_momentum"%string := summary_row "trend_momentum" false ]}.

(** Two degraded strategies. *)
Definition two_degraded_strategies : gmap string PerformanceTracker.StrategySummary :=
  list_to_map [ ("earnings_context"%string, summary_row "earnings_context" true);
                ("news_sentiment"%string, summary_row "news_sentiment" true) ].

(** A single realised outcome: one observation on the 1d horizon, none
    on the others; five are required. *)
Definition single_outcome : list PerformanceTracker.OutcomeRecord :=
  [ {| PerformanceTracker.strategy_id := "trend_momentum";
       PerformanceTracker.timestamp := "2026-01-02T00:00:00";
       PerformanceTracker.returns_pct := {[ "1d"%string := 1.0%Q ]} |} ].

(** Five realised losses of one strategy on the 1d horizon, and no
    record of any other strategy. *)
Definition five_losses : list PerformanceTracker.OutcomeRecord :=
  (fun day : string =>
     {| PerformanceTracker.strategy_id := "news_sentiment";
        PerformanceTracker.timestamp := day;
        PerformanceTracker.returns_pct := {[ "1d"%string := (-1.0)%Q ]} |})
  <$> [ "2026-01-02"; "2026-01-05"; "2026-01-06"; "2026-01-07"; "2026-01-08" ]%string.

End Examples.

(* ===================================================================== *)
(** ** Vocabulary of the statements                                      *)
(* ===================================================================== *)

Module Vocabulary.

(** A rejection of the manual entry point: status 400 and an error
    body. *)
Definition is_rejection (answer : Z * ManualApi.Body) : Prop :=
  exists message, answer = ManualApi._error message.

(** The per-stock entry that [evaluate_daily_sanity] appends for a
    result, and its penalty. *)
Definition penalty_of (config : SanityLayer.Config) (row : SanityLayer.Row) : Z :=
  (Z.min (Z.of_nat (length (SanityLayer.violations_of row (SanityLayer.rules config))))
         (SanityLayer.violation_cap (SanityLayer.health_score config))
   * SanityLayer.per_violation (SanityLayer.health_score config))%Z.

Definition stock_sanity (config : SanityLayer.Config) (row : SanityLayer.Row)
  : SanityLayer.StockSanity :=
  {| SanityLayer.ps_ticker := default "UNKNOWN"%string (SanityLayer.row_ticker row);
     SanityLayer.ps_violations := SanityLayer.violations_of row (SanityLayer.rules config);
     SanityLayer.ps_penalty := penalty_of config row |}.

(** The dictionary that [apply_health_controls] builds from a result
    [r]: the copy with the overlay keys set, and the rating rewritten
    when the guard is active and the rating is BUY. *)
Definition downgraded (guard_active : bool) (r : SanityLayer.Row) : bool :=
  guard_active && SanityLayer.rating_is_BUY r.

Definition enrich (hs : Z) (guard_active : bool) (r : SanityLayer.Row) : SanityLayer.Row :=
  let enriched :=
    SanityLayer.set_base_rating (SanityLayer.row_rating r)
      (SanityLayer.set_sanity_guard_active guard_active
         (SanityLayer.set_health_score hs r)) in
  if downgraded guard_active r
  then SanityLayer.set_sanity_adjustment_reason "health_guard_blocked_buy"
         (SanityLayer.set_rating "HOLD" enriched)
  else enriched.

(** The references [refs] name, in the store [h], the dictionaries
    [rows]. *)
Definition points_to (h : SanityLayer.store) (refs : list SanityLayer.loc)
    (rows : list SanityLayer.Row) : Prop :=
  Forall2 (fun l r => h !! l = Some r) refs rows.

(** A history all of whose entries carry a readable date, and a
    history in ascending date order. *)
Definition entry_date (row : SanityLayer.HistoryEntry) : option SanityLayer.date :=
  SanityLayer.he_date row ≫= SanityLayer._parse_date.

Definition well_dated (history : list SanityLayer.HistoryEntry) : Prop :=
  Forall (fun row => is_Some (entry_date row)) history.

Definition date_le (a b : SanityLayer.date) : Prop := SanityLayer.date_leb a b = true.

Definition sorted_by_date (history : list SanityLayer.HistoryEntry) : Prop :=
  exists dates, mapM entry_date history = Some dates /\ StronglySorted date_le dates.

(** The entries of other dates. *)
Definition other_dates (report_date : string) (history : list SanityLayer.HistoryEntry)
  : list SanityLayer.HistoryEntry :=
  filter (fun row => negb (SanityLayer.has_date report_date row)) history.

(** The observations that the outcome records hold for a strategy on
    a horizon. *)
Definition observations (outcomes : list PerformanceTracker.OutcomeRecord)
    (sid horizon : string) : list Q :=
  omap (fun r => PerformanceTracker.returns_pct r !! horizon)
       (filter (fun r => PerformanceTracker.strategy_id r = sid) outcomes).

(** Fewer than [min_trades_required] observations on every tracked
    horizon. *)
Definition insufficient_data (outcomes : list PerformanceTracker.OutcomeRecord)
    (config : PerformanceTracker.EvolutionConfig) (sid : string) : bool :=
  forallb (fun horizon =>
             (Z.of_nat (length (observations outcomes sid horizon))
              <? PerformanceTracker.min_trades_required (PerformanceTracker.degradation config))%Z)
          (PerformanceTracker.tracking_horizons config).

(** The shift that a recorded change applied. *)
Definition shift_of (c : StrategyEvolution.WeightChange) : Z :=
  Z.abs (StrategyEvolution.new_weight c - StrategyEvolution.old_weight c).

End Vocabulary.

(** Case analysis on a validator that returned an error. *)
Ltac split_validator H :=
  repeat match type of H with
         | context [match ?x with _ => _ end] => destruct x; try discriminate H
         | context [if ?b then _ else _] => destruct b; try discriminate H
         end;
  injection H as <-; eexists; reflexivity.
(* ===================================================================== *)
(** * Properties                                                         *)
(* ===================================================================== *)

(** ** Configuration loading *)

Section ConfigLoading.
Import CoreAnalysis.

Lemma validate_config_passes_iff (config : Config) :
  _validate_config config = None <-> weight_total (weights config) = 100%Z.
Proof.
  unfold _validate_config.
  destruct (Z.eqb_spec (weight_total (weights config)) 100) as [Heq | Hne].
  - split; auto.
  - split; [discriminate | contradiction].
Qed.

(** C4, as amended.  Loading fails exactly on the weight total: a
    configuration whose weights do not sum to 100 is refused with the
    [ValueError] that reports the total found, and a configuration whose
    weights do sum to 100 is accepted unchanged, whatever its rating
    thresholds are. *)
Theorem load_analysis_config_checks_weight_total_only (config : Config) :
  (weight_total (weights config) <> 100%Z ->
     load_analysis_config config
     = ValueError_weights_must_sum_to_100 (weight_total (weights config)))
  /\ (weight_total (weights config) = 100%Z ->
        load_analysis_config config = Loaded config).
Proof.
  unfold load_analysis_config. split; intros Htotal.
  - destruct (_validate_config config) as [err |] eqn:Hv.
    + unfold _validate_config in Hv.
      destruct (Z.eqb_spec (weight_total (weights config)) 100); congruence.
    + apply validate_config_passes_iff in Hv. contradiction.
  - apply validate_config_passes_iff in Htotal. now rewrite Htotal.
Qed.

Lemma load_analysis_config_checks_weight_total_only_witness :
  load_analysis_config Examples.short_weights_config
    = ValueError_weights_must_sum_to_100 90
  /\ load_analysis_config Examples.analysis_config = Loaded Examples.analysis_config.
Proof.
  split.
  - apply (proj1 (load_analysis_config_checks_weight_total_only Examples.short_weights_config)).
    vm_compute. discriminate.
  - apply (proj2 (load_analysis_config_checks_weight_total_only Examples.analysis_config)).
    vm_compute. reflexivity.
Defined.

(** C4, the claim as stated fails: thresholds with [buy_min <= hold_min]
    are loaded without error when the weights sum to 100. *)
Lemma inverted_thresholds_are_loaded :
  (buy_min (rating_thresholds Examples.inverted_thresholds_config)
     <=? hold_min (rating_thresholds Examples.inverted_thresholds_config))%Z = true
  /\ load_analysis_config Examples.inverted_thresholds_config
     = Loaded Examples.inverted_thresholds_config.
Proof. split; vm_compute; reflexivity. Qed.

End ConfigLoading.
(** ** The daily drift cap *)

Section DriftCap.
Import CoreAnalysis.

Lemma clamp_int_within (value lower upper : Z) :
  (lower <= upper)%Z ->
  (lower <= _clamp_int value lower upper <= upper)%Z
  /\ ((lower <= value <= upper)%Z -> _clamp_int value lower upper = value)
  /\ ((value < lower)%Z -> _clamp_int value lower upper = lower)
  /\ ((upper < value)%Z -> _clamp_int value lower upper = upper).
Proof. unfold _clamp_int. lia. Qed.

Lemma analyze_stock_fields (analysis_input : AnalysisInput) (config : Config)
    (previous_score : option Z) (breakdown : list (string * Q)) :
  calculate_score_breakdown analysis_input config = Some breakdown ->
  exists result,
    analyze_stock analysis_input config previous_score = Some result
    /\ r_score result
       = apply_daily_score_change_cap (calculate_composite_score breakdown config)
           previous_score config
    /\ r_previous_score result = previous_score
    /\ r_score_before_daily_cap result
       = match previous_score with
         | Some _ => Some (calculate_composite_score breakdown config)
         | None => None
         end.
Proof.
  intros Hbd. unfold analyze_stock. rewrite Hbd. cbn.
  eexists. split; [reflexivity |]. cbn. auto.
Qed.

(** C5.  When a previous score [previous] is supplied, the override
    [disable_score_change_cap] is not set and [max_daily_score_change] is
    configured as [max_change], the score of the result is the uncapped
    composite score clamped to
    [[previous - max_change, previous + max_change]], and the field
    [score_before_daily_cap] holds the uncapped composite score. *)
Theorem daily_cap_clamps_final_score (analysis_input : AnalysisInput) (config : Config)
    (previous max_change : Z) (breakdown : list (string * Q)) :
  calculate_score_breakdown analysis_input config = Some breakdown ->
  disable_score_change_cap (safety_guards config) = false ->
  max_daily_score_change (safety_guards config) = Some max_change ->
  let uncapped := calculate_composite_score breakdown config in
  exists result,
    analyze_stock analysis_input config (Some previous) = Some result
    /\ r_score result = Z.max (previous - max_change) (Z.min (previous + max_change) uncapped)
    /\ ((0 <= max_change)%Z ->
         (previous - max_change <= r_score result <= previous + max_change)%Z
         /\ ((previous - max_change <= uncapped <= previous + max_change)%Z ->
               r_score result = uncapped)
         /\ ((uncapped < previous - max_change)%Z ->
               r_score result = (previous - max_change)%Z)
         /\ ((previous + max_change < uncapped)%Z ->
               r_score result = (previous + max_change)%Z))
    /\ r_previous_score result = Some previous
    /\ r_score_before_daily_cap result = Some uncapped.
Proof.
  intros Hbd Hoff Hmax uncapped.
  destruct (analyze_stock_fields analysis_input config (Some previous) breakdown Hbd)
    as (result & Hrun & Hscore & Hprev & Hbefore).
  exists result. split; [exact Hrun |].
  assert (Hcap : r_score result
                 = _clamp_int uncapped (previous - max_change) (previous + max_change)).
  { rewrite Hscore. unfold apply_daily_score_change_cap. now rewrite Hoff, Hmax. }
  split; [exact Hcap |]. split; [| split; assumption].
  intros Hnonneg. rewrite Hcap.
  apply clamp_int_within. lia.
Qed.

Lemma daily_cap_clamps_final_score_witness :
  exists result,
    analyze_stock Examples.all_100_input Examples.analysis_config (Some 40%Z) = Some result
    /\ r_score result = 50%Z
    /\ r_score_before_daily_cap result = Some 100%Z.
Proof.
  destruct (daily_cap_clamps_final_score Examples.all_100_input Examples.analysis_config
              40 10
              [ ("trend_momentum"%string, 25.00%Q); ("fundamentals"%string, 25.00%Q);
                ("news_sentiment"%string, 20.00%Q); ("earnings_context"%string, 15.00%Q);
                ("risk_volatility"%string, 15.00%Q) ])
    as (result & Hrun & _ & Hrange & _ & Hbefore).
  - vm_compute. reflexivity.
  - reflexivity.
  - reflexivity.
  - exists result. split; [exact Hrun |]. split.
    + destruct Hrange as (_ & _ & _ & Hhigh); [lia |].
      rewrite Hhigh; [reflexivity | vm_compute; reflexivity].
    + rewrite Hbefore. vm_compute. reflexivity.
Defined.

End DriftCap.

(** ** Manual analysis *)

Section ManualAnalysis.
Import CoreAnalysis ManualApi Vocabulary.

Variable str_to_float : string -> option Q.

Lemma validate_mode_rejection (payload : gmap string json) (answer : Z * Body) :
  _validate_mode payload = inr answer -> is_rejection answer.
Proof. unfold _validate_mode. intros H. split_validator H. Qed.

Lemma validate_strategy_rejection (payload : gmap string json) (answer : Z * Body) :
  _validate_strategy payload = inr answer -> is_rejection answer.
Proof. unfold _validate_strategy. intros H. split_validator H. Qed.

Lemma validate_component_scores_rejection (payload : gmap string json) (answer : Z * Body) :
  _validate_component_scores str_to_float payload = inr answer -> is_rejection answer.
Proof. unfold _validate_component_scores. intros H. split_validator H. Qed.

Lemma resolve_current_price_rejection (payload : gmap string json) (answer : Z * Body) :
  _resolve_current_price str_to_float payload = inr answer -> is_rejection answer.
Proof. unfold _resolve_current_price. intros H. split_validator H. Qed.

Lemma validate_manual_request_rejection (payload : gmap string json) (answer : Z * Body) :
  validate_manual_request str_to_float payload = inr answer -> is_rejection answer.
Proof.
  unfold validate_manual_request. intros H.
  destruct (get payload "ticker") as [| | | | ticker_text | |];
    try (injection H as <-; eexists; reflexivity).
  destruct (String.eqb (Py.strip ticker_text) "");
    [injection H as <-; eexists; reflexivity |].
  destruct (_validate_mode payload) as [m | e] eqn:Hmode;
    [| injection H as <-; eauto using validate_mode_rejection].
  destruct (_validate_strategy payload) as [sp | e] eqn:Hstrategy;
    [| injection H as <-; eauto using validate_strategy_rejection].
  destruct (_validate_component_scores str_to_float payload) as [cs | e] eqn:Hscores;
    [| injection H as <-; eauto using validate_component_scores_rejection].
  destruct (_resolve_current_price str_to_float payload) as [price | e] eqn:Hprice;
    [discriminate H | injection H as <-; eauto using resolve_current_price_rejection].
Qed.

(** Whatever [handle_manual_analysis] answers with an analysis body
    comes from [analyze_stock] run without a previous score. *)
Lemma manual_analysis_result_origin (payload : gmap string json) (config : Config)
    (status : Z) (result : AnalysisResult) (strategy : StrategyParameters) :
  handle_manual_analysis str_to_float payload config
    = Some (status, AnalysisBody result strategy) ->
  exists analysis_input,
    validate_manual_request str_to_float payload = inl (analysis_input, strategy)
    /\ analyze_stock analysis_input config None = Some result.
Proof.
  unfold handle_manual_analysis.
  destruct (validate_manual_request str_to_float payload) as [[analysis_input sp] | err] eqn:Hv.
  - destruct (analyze_stock analysis_input config None) as [r |] eqn:Hrun; cbn; [| discriminate].
    intros [= _ -> ->]. exists analysis_input. auto.
  - intros [= ->]. apply validate_manual_request_rejection in Hv.
    destruct Hv as [message Hmsg]. discriminate Hmsg.
Qed.

(** C10.  For a request that passes validation (and a configuration
    that weighs each of the five components), the manual entry point
    answers 200 with a result that has neither [previous_score] nor
    [score_before_daily_cap], and whose score is the uncapped composite
    score: the drift cap never applies. *)
Theorem manual_analysis_is_never_capped (payload : gmap string json) (config : Config)
    (analysis_input : AnalysisInput) (strategy : StrategyParameters)
    (breakdown : list (string * Q)) :
  validate_manual_request str_to_float payload = inl (analysis_input, strategy) ->
  calculate_score_breakdown analysis_input config = Some breakdown ->
  exists result,
    handle_manual_analysis str_to_float payload config
      = Some (OK, AnalysisBody result strategy)
    /\ r_previous_score result = None
    /\ r_score_before_daily_cap result = None
    /\ r_score result = calculate_composite_score breakdown config.
Proof.
  intros Hvalid Hbd.
  destruct (analyze_stock_fields analysis_input config None breakdown Hbd)
    as (result & Hrun & Hscore & Hprev & Hbefore).
  exists result. unfold handle_manual_analysis. rewrite Hvalid, Hrun. cbn.
  repeat split; assumption.
Qed.

End ManualAnalysis.

Lemma manual_analysis_is_never_capped_witness :
  exists result,
    ManualApi.handle_manual_analysis Examples.no_numeral_strings
      Examples.manual_payload Examples.analysis_config
      = Some (ManualApi.OK, ManualApi.AnalysisBody result Examples.manual_strategy)
    /\ CoreAnalysis.r_previous_score result = None
    /\ CoreAnalysis.r_score_before_daily_cap result = None
    /\ CoreAnalysis.r_score result = 75%Z.
Proof.
  destruct (CoreAnalysis.calculate_score_breakdown Examples.manual_input Examples.analysis_config)
    as [breakdown |] eqn:Hbd; [| vm_compute in Hbd; discriminate].
  destruct (manual_analysis_is_never_capped Examples.no_numeral_strings
              Examples.manual_payload Examples.analysis_config
              Examples.manual_input Examples.manual_strategy breakdown)
    as (result & Hrun & Hprev & Hbefore & Hscore).
  - vm_compute. reflexivity.
  - exact Hbd.
  - exists result. repeat split; try assumption.
    rewrite Hscore. vm_compute in Hbd. injection Hbd as <-. vm_compute. reflexivity.
Defined.

(** ** Sanity evaluation *)

Section SanityEvaluation.
Import SanityLayer Vocabulary.

Lemma sanity_fold (config : Config) (rows : list Row) (per_stock : list StockSanity)
    (total_penalty : Z) :
  fold_left (sanity_step config) rows (per_stock, total_penalty)
  = (per_stock ++ map (stock_sanity config) rows,
     (total_penalty + Py.sumZ (map (penalty_of config) rows))%Z).
Proof.
  revert per_stock total_penalty.
  induction rows as [| row rows IH]; intros per_stock total_penalty; cbn.
  - now rewrite app_nil_r, Z.add_0_r.
  - rewrite IH. f_equal.
    + rewrite <- app_assoc. reflexivity.
    + fold (penalty_of config row). unfold Py.sumZ. lia.
Qed.

Lemma evaluate_daily_sanity_unfold (analysis_results : list Row) (config : Config) :
  rep_per_stock (evaluate_daily_sanity analysis_results config)
    = map (stock_sanity config) analysis_results
  /\ rep_total_penalty (evaluate_daily_sanity analysis_results config)
     = Py.sumZ (map (penalty_of config) analysis_results)
  /\ rep_health_score (evaluate_daily_sanity analysis_results config)
     = Z.max 0 (100 - Py.sumZ (map (penalty_of config) analysis_results)).
Proof.
  unfold evaluate_daily_sanity. rewrite sanity_fold. cbn. auto.
Qed.

(** C6.  In the report of [evaluate_daily_sanity] each per-stock
    penalty is [min(violation_count, violation_cap) * per_violation],
    computed from the violations found for that stock, and the health
    score is [max(0, 100 - sum of the per-stock penalties)]. *)
Theorem health_score_from_capped_penalties (analysis_results : list Row) (config : Config) :
  let report := evaluate_daily_sanity analysis_results config in
  let cap := violation_cap (health_score config) in
  let unit_penalty := per_violation (health_score config) in
  map ps_violations (rep_per_stock report)
    = map (fun row => violations_of row (rules config)) analysis_results
  /\ Forall (fun item =>
               ps_penalty item
               = (Z.min (Z.of_nat (length (ps_violations item))) cap * unit_penalty)%Z)
            (rep_per_stock report)
  /\ rep_health_score report
     = Z.max 0 (100 - Py.sumZ (map ps_penalty (rep_per_stock report))).
Proof.
  intros report cap unit_penalty.
  destruct (evaluate_daily_sanity_unfold analysis_results config) as (Hps & _ & Hhs).
  subst report. rewrite Hps, Hhs. repeat split.
  - rewrite map_map. reflexivity.
  - clear Hps Hhs. induction analysis_results as [| row rows IH]; cbn.
    + constructor.
    + constructor; [reflexivity | exact IH].
  - rewrite map_map. reflexivity.
Qed.

End SanityEvaluation.

(** ** Health controls *)

Section HealthControls.
Import SanityLayer Vocabulary.

Lemma alter_new_object (f : Row -> Row) (h : store) (r : Row) :
  alter f (length h) (h ++ [r]) = h ++ [f r].
Proof. induction h as [| x h IH]; cbn; [reflexivity | now rewrite IH]. Qed.

Lemma lookup_old_object (h fresh : store) (l : loc) (r : Row) :
  h !! l = Some r -> (h ++ fresh) !! l = Some r.
Proof.
  intros Hl. rewrite lookup_app_l; [exact Hl | eapply lookup_lt_Some; exact Hl].
Qed.

Lemma points_to_exists (h : store) (refs : list loc) :
  Forall (fun l => is_Some (h !! l)) refs -> exists rows, points_to h refs rows.
Proof.
  induction 1 as [| l refs [r Hr] _ [rows IH]].
  - exists []. constructor.
  - exists (r :: rows). now constructor.
Qed.

(** One turn of the loop allocates one object, writes only to it, and
    leaves it equal to [enrich] of the dictionary read. *)
Lemma controls_step_spec (hs : Z) (guard_active : bool) (h : store) (adjusted : list loc)
    (count : Z) (l : loc) (r : Row) :
  h !! l = Some r ->
  controls_step hs guard_active (h, adjusted, count) l
  = Some (h ++ [enrich hs guard_active r], adjusted ++ [length h],
          (count + (if downgraded guard_active r then 1 else 0))%Z).
Proof.
  intros Hl.
  unfold controls_step, alloc, setitem. cbv beta iota zeta.
  rewrite Hl. cbn [mbind option_bind].
  rewrite !alter_new_object, (lookup_old_object h _ l r Hl). cbn [mbind option_bind].
  rewrite !alter_new_object, (lookup_old_object h _ l r Hl). cbn [mbind option_bind].
  unfold enrich, downgraded.
  destruct (guard_active && rating_is_BUY r).
  - now rewrite ?alter_new_object.
  - now rewrite Z.add_0_r.
Qed.

Lemma controls_loop_spec (hs : Z) (guard_active : bool) (h : store) (refs : list loc)
    (rows : list Row) :
  points_to h refs rows ->
  forall (fresh : list Row) (adjusted : list loc) (count : Z),
    controls_loop hs guard_active refs (h ++ fresh, adjusted, count)
    = Some (h ++ fresh ++ (enrich hs guard_active <$> rows),
            adjusted ++ seq (length h + length fresh) (length refs),
            (count + Py.sumZ (map (fun r => if downgraded guard_active r then 1 else 0) rows))%Z).
Proof.
  induction 1 as [| l r refs rows Hl _ IH]; intros fresh adjusted count.
  - cbn. now rewrite !app_nil_r, Z.add_0_r.
  - cbn [controls_loop].
    rewrite (controls_step_spec hs guard_active (h ++ fresh) adjusted count l r)
      by now apply lookup_old_object.
    cbn [mbind option_bind]. rewrite <- (app_assoc h fresh), IH.
    rewrite !length_app. cbn.
    rewrite <- !app_assoc. cbn.
    replace (length h + (length fresh + 1)) with (S (length h + length fresh)) by lia.
    unfold Py.sumZ. f_equal. f_equal. lia.
Qed.

(** The whole call, in closed form. *)
Lemma apply_health_controls_spec (h : store) (refs : list loc) (rows : list Row)
    (report : SanityReport) (config : Config) :
  points_to h refs rows ->
  let hs := rep_health_score report in
  let guard_active := (hs <? block_buy_below_health_score (behavior_controls config))%Z in
  exists controls,
    apply_health_controls h refs report config
    = Some (h ++ (enrich hs guard_active <$> rows), seq (length h) (length refs), controls)
    /\ health_guard_active controls = guard_active.
Proof.
  intros Hpt hs guard_active. unfold apply_health_controls.
  pose proof (controls_loop_spec hs guard_active h refs rows Hpt [] [] 0%Z) as Hloop.
  rewrite app_nil_r in Hloop. fold hs. fold guard_active. rewrite Hloop. cbn.
  rewrite Nat.add_0_r. eexists. split; reflexivity.
Qed.

(** Where the copy of the [i]-th input ends up. *)
Lemma enriched_copy_lookup (h : store) (refs : list loc) (rows : list Row)
    (f : Row -> Row) (i : nat) (l : loc) (r : Row) :
  points_to h refs rows ->
  refs !! i = Some l ->
  h !! l = Some r ->
  seq (length h) (length refs) !! i = Some (length h + i)
  /\ (h ++ (f <$> rows)) !! (length h + i) = Some (f r).
Proof.
  intros Hpt Hi Hl.
  destruct (Forall2_lookup_l _ _ _ _ _ Hpt Hi) as (r' & Hrow & Hl').
  assert (r' = r) as -> by congruence.
  split.
  - apply lookup_seq. split; [reflexivity | eapply lookup_lt_Some; exact Hi].
  - rewrite lookup_app_r by lia.
    replace (length h + i - length h) with i by lia.
    now rewrite list_lookup_fmap, Hrow.
Qed.

Lemma enrich_rating_when_blocked (hs : Z) (r : Row) :
  row_rating r = Some "BUY"%string ->
  row_rating (enrich hs true r) = Some "HOLD"%string
  /\ row_base_rating (enrich hs true r) = Some (Some "BUY"%string)
  /\ row_sanity_guard_active (enrich hs true r) = Some true.
Proof.
  intros Hbuy. unfold enrich, downgraded, rating_is_BUY. rewrite Hbuy. cbn. auto.
Qed.

Lemma enrich_rating_when_not_buy (hs : Z) (guard_active : bool) (r : Row) :
  row_rating r <> Some "BUY"%string ->
  row_rating (enrich hs guard_active r) = row_rating r.
Proof.
  intros Hnot. unfold enrich, downgraded, rating_is_BUY.
  destruct (row_rating r) as [s |] eqn:Hs.
  - destruct (String.eqb_spec s "BUY") as [-> | Hne]; [contradiction |].
    rewrite andb_false_r. cbn. exact Hs.
  - rewrite andb_false_r. cbn. exact Hs.
Qed.

Lemma enrich_rating_when_inactive (hs : Z) (r : Row) :
  row_rating (enrich hs false r) = row_rating r
  /\ row_base_rating (enrich hs false r) = Some (row_rating r)
  /\ row_sanity_guard_active (enrich hs false r) = Some false.
Proof. unfold enrich, downgraded. cbn. auto. Qed.

(** C7.  When the health score is below
    [block_buy_below_health_score], every result rated BUY comes out
    rated HOLD, with the original rating under [base_rating] and
    [sanity_guard_active] set to true (results with another rating keep
    it); when the health score is at or above the threshold every result
    keeps its rating. *)
Theorem health_guard_rewrites_buy_to_hold (h : store) (analysis_results : list loc)
    (sanity_report : SanityReport) (config : Config) :
  Forall (fun l => is_Some (h !! l)) analysis_results ->
  let hs := rep_health_score sanity_report in
  let threshold := block_buy_below_health_score (behavior_controls config) in
  exists h' adjusted controls,
    apply_health_controls h analysis_results sanity_report config
      = Some (h', adjusted, controls)
    /\ forall i l r,
         analysis_results !! i = Some l ->
         h !! l = Some r ->
         exists e r',
           adjusted !! i = Some e
           /\ h' !! e = Some r'
           /\ ((hs < threshold)%Z ->
                 (row_rating r = Some "BUY"%string ->
                    row_rating r' = Some "HOLD"%string
                    /\ row_base_rating r' = Some (Some "BUY"%string)
                    /\ row_sanity_guard_active r' = Some true)
                 /\ (row_rating r <> Some "BUY"%string -> row_rating r' = row_rating r))
           /\ ((threshold <= hs)%Z -> row_rating r' = row_rating r).
Proof.
  intros Hvalid hs threshold.
  destruct (points_to_exists h analysis_results Hvalid) as [rows Hpt].
  destruct (apply_health_controls_spec h analysis_results rows sanity_report config Hpt)
    as (controls & Hrun & _).
  eexists _, _, controls. split; [exact Hrun |].
  intros i l r Hi Hl.
  destruct (enriched_copy_lookup h analysis_results rows
              (enrich hs (hs <? threshold)%Z) i l r Hpt Hi Hl) as [Hadj Hobj].
  exists (length h + i), (enrich hs (hs <? threshold)%Z r).
  split; [exact Hadj |]. split; [exact Hobj |]. split.
  - intros Hlow. apply Z.ltb_lt in Hlow. rewrite Hlow. split.
    + apply enrich_rating_when_blocked.
    + apply enrich_rating_when_not_buy.
  - intros Hhigh. apply Z.ltb_ge in Hhigh. rewrite Hhigh.
    apply enrich_rating_when_inactive.
Qed.

(** C9.  [apply_health_controls] does not write to any object that
    existed before the call, so every input record is unchanged; the
    adjusted batch is made of as many new, pairwise distinct objects, the
    [i]-th being the enriched copy of the [i]-th input. *)
Theorem apply_health_controls_leaves_input_unchanged (h : store)
    (analysis_results : list loc) (sanity_report : SanityReport) (config : Config) :
  Forall (fun l => is_Some (h !! l)) analysis_results ->
  let hs := rep_health_score sanity_report in
  let guard_active := (hs <? block_buy_below_health_score (behavior_controls config))%Z in
  exists h' adjusted controls,
    apply_health_controls h analysis_results sanity_report config
      = Some (h', adjusted, controls)
    /\ (forall l r, h !! l = Some r -> h' !! l = Some r)
    /\ length adjusted = length analysis_results
    /\ NoDup adjusted
    /\ Forall (fun e => length h <= e < length h') adjusted
    /\ (forall i l r,
          analysis_results !! i = Some l ->
          h !! l = Some r ->
          exists e, adjusted !! i = Some e /\ h' !! e = Some (enrich hs guard_active r)).
Proof.
  intros Hvalid hs guard_active.
  destruct (points_to_exists h analysis_results Hvalid) as [rows Hpt].
  destruct (apply_health_controls_spec h analysis_results rows sanity_report config Hpt)
    as (controls & Hrun & _).
  eexists _, _, controls. split; [exact Hrun |].
  pose proof (Forall2_length _ _ _ Hpt) as Hlen.
  repeat split.
  - intros l r Hl. now apply lookup_old_object.
  - apply length_seq.
  - apply NoDup_seq.
  - apply Forall_forall. intros e He. apply elem_of_seq in He.
    rewrite length_app, length_fmap. lia.
  - intros i l r Hi Hl.
    destruct (enriched_copy_lookup h analysis_results rows
                (enrich hs guard_active) i l r Hpt Hi Hl) as [Hadj Hobj].
    eauto.
Qed.

End HealthControls.

Lemma health_guard_rewrites_buy_to_hold_witness :
  exists h' adjusted controls,
    SanityLayer.apply_health_controls Examples.batch [0; 1]
      Examples.batch_report Examples.sanity_config = Some (h', adjusted, controls)
    /\ SanityLayer.row_rating <$> (adjusted !! 0 ≫= (h' !!.)) = Some (Some "HOLD"%string)
    /\ SanityLayer.row_base_rating <$> (adjusted !! 0 ≫= (h' !!.))
       = Some (Some (Some "BUY"%string)).
Proof.
  destruct (health_guard_rewrites_buy_to_hold Examples.batch [0; 1]
              Examples.batch_report Examples.sanity_config)
    as (h' & adjusted & controls & Hrun & Hrows).
  - repeat constructor; eexists; reflexivity.
  - exists h', adjusted, controls. split; [exact Hrun |].
    destruct (Hrows 0 0 Examples.row_ABCD eq_refl eq_refl)
      as (e & r' & Hadj & Hobj & Hlow & _).
    destruct Hlow as [Hbuy _]; [vm_compute; reflexivity |].
    destruct (Hbuy eq_refl) as (Hhold & Hbase & _).
    rewrite Hadj. cbn. rewrite Hobj. cbn. now rewrite Hhold, Hbase.
Defined.

Lemma apply_health_controls_leaves_input_unchanged_witness :
  exists h' adjusted controls,
    SanityLayer.apply_health_controls Examples.batch [0; 1]
      Examples.batch_report Examples.sanity_config = Some (h', adjusted, controls)
    /\ h' !! 0 = Some Examples.row_ABCD
    /\ h' !! 1 = Some Examples.row_EFGH
    /\ length adjusted = 2.
Proof.
  destruct (apply_health_controls_leaves_input_unchanged Examples.batch [0; 1]
              Examples.batch_report Examples.sanity_config)
    as (h' & adjusted & controls & Hrun & Hold & Hlen & _).
  - repeat constructor; eexists; reflexivity.
  - exists h', adjusted, controls. split; [exact Hrun |].
    split; [apply Hold; reflexivity |]. split; [apply Hold; reflexivity | exact Hlen].
Defined.


(** ** Stable sorting *)

Section StableSortFacts.
Context {A : Type} (leb : A -> A -> bool).

Lemma insert_sorted_perm (x : A) (l : list A) : Py.insert_sorted leb x l ≡ₚ x :: l.
Proof.
  induction l as [| y l IH]; cbn; [reflexivity |].
  destruct (leb x y); [reflexivity |].
  rewrite IH. apply perm_swap.
Qed.

Lemma sorted_perm (l : list A) : Py.sorted leb l ≡ₚ l.
Proof.
  induction l as [| x l IH]; cbn; [reflexivity |].
  unfold Py.sorted in IH. now rewrite insert_sorted_perm, IH.
Qed.

Hypothesis leb_total : forall a b, leb a b = false -> leb b a = true.
Hypothesis leb_trans : forall a b c, leb a b = true -> leb b c = true -> leb a c = true.

Lemma insert_sorted_sorted (x : A) (l : list A) :
  StronglySorted (fun a b => leb a b = true) l ->
  StronglySorted (fun a b => leb a b = true) (Py.insert_sorted leb x l).
Proof.
  induction 1 as [| y l Hsorted IH Hall]; cbn.
  - repeat constructor.
  - destruct (leb x y) eqn:Hxy.
    + constructor; [now constructor |].
      constructor; [exact Hxy |].
      eapply Forall_impl; [exact Hall |]. intros z Hyz. cbn in Hyz. eauto.
    + constructor; [exact IH |].
      rewrite insert_sorted_perm. constructor; [auto | exact Hall].
Qed.

Lemma sorted_sorted (l : list A) :
  StronglySorted (fun a b => leb a b = true) (Py.sorted leb l).
Proof.
  induction l as [| x l IH]; cbn; [constructor |].
  now apply insert_sorted_sorted.
Qed.

End StableSortFacts.

(** ** Health history *)

Section HealthHistory.
Import SanityLayer Vocabulary.

Lemma date_leb_total (a b : date) : date_leb a b = false -> date_leb b a = true.
Proof. unfold date_leb. destruct a, b; cbn. lia. Qed.

Lemma date_leb_trans (a b c : date) :
  date_leb a b = true -> date_leb b c = true -> date_leb a c = true.
Proof. unfold date_leb. destruct a, b, c; cbn. lia. Qed.

Lemma sort_key_Some (row : HistoryEntry) (p : date * HistoryEntry) :
  sort_key row = Some p <-> entry_date row = Some p.1 /\ p.2 = row.
Proof.
  unfold sort_key, entry_date. destruct p as [k row']. cbn.
  destruct (he_date row) as [d |]; cbn; [| split; [discriminate | intros [? _]; discriminate]].
  destruct (_parse_date d) as [k' |]; cbn; [| split; [discriminate | intros [? _]; discriminate]].
  split.
  - intros [= -> ->]. auto.
  - intros [[= ->] ->]. reflexivity.
Qed.

Lemma sort_key_is_Some (row : HistoryEntry) :
  is_Some (sort_key row) <-> is_Some (entry_date row).
Proof.
  split.
  - intros [p Hp]. apply sort_key_Some in Hp. destruct Hp as [Hd _]. eauto.
  - intros [k Hk]. exists (k, row). apply sort_key_Some. auto.
Qed.

Lemma new_entry_date (report_date : string) (k : date) (rows : list Row) (report : SanityReport) :
  _parse_date report_date = Some k ->
  entry_date (new_entry report_date rows report) = Some k.
Proof. intros Hk. unfold entry_date. cbn. exact Hk. Qed.

Lemma new_entry_has_date (report_date : string) (rows : list Row) (report : SanityReport) :
  has_date report_date (new_entry report_date rows report) = true.
Proof. unfold has_date. cbn. apply String.eqb_refl. Qed.

(** Sorting a keyed list by date and dropping the keys. *)
Lemma sort_by_date_spec (history : list HistoryEntry) (keyed : list (date * HistoryEntry)) :
  mapM sort_key history = Some keyed ->
  (snd <$> Py.sorted by_date keyed) ≡ₚ history
  /\ well_dated (snd <$> Py.sorted by_date keyed)
  /\ sorted_by_date (snd <$> Py.sorted by_date keyed).
Proof.
  intros Hkeyed. apply mapM_Some_1 in Hkeyed.
  assert (Hrows : snd <$> keyed = history).
  { induction Hkeyed as [| row p history keyed Hp _ IH]; cbn; [reflexivity |].
    apply sort_key_Some in Hp. destruct Hp as [_ Hrow]. now rewrite Hrow, IH. }
  assert (Hkeys : Forall (fun p => entry_date p.2 = Some p.1) keyed).
  { clear Hrows.
    induction Hkeyed as [| row p history keyed Hp _ IH]; constructor; [| exact IH].
    apply sort_key_Some in Hp. destruct Hp as [Hd Hrow]. now rewrite Hrow. }
  pose proof (sorted_perm by_date keyed) as Hperm.
  assert (Hkeys' : Forall (fun p => entry_date p.2 = Some p.1) (Py.sorted by_date keyed)).
  { now rewrite Hperm. }
  pose proof (sorted_sorted by_date
                (fun a b => date_leb_total a.1 b.1)
                (fun a b c => date_leb_trans a.1 b.1 c.1) keyed) as Hsorted.
  split; [now rewrite Hperm, Hrows |].
  clear Hperm Hrows Hkeys Hkeyed.
  induction Hsorted as [| p l Hsorted IH Hall]; cbn.
  - split; [constructor |]. exists []. split; [reflexivity | constructor].
  - apply Forall_cons in Hkeys'. destruct Hkeys' as [Hp Hl].
    destruct (IH Hl) as (Hwell & dates & Hdates & Hsd).
    split.
    + constructor; [rewrite Hp; eauto | exact Hwell].
    + exists (p.1 :: dates). split.
      * cbn. rewrite Hp. cbn. unfold fmap in Hdates |- *. rewrite Hdates. reflexivity.
      * constructor; [exact Hsd |].
        apply mapM_Some_1 in Hdates.
        clear IH Hsd Hwell Hsorted Hp.
        revert dates Hdates.
        induction Hall as [| q l Hpq _ IHall]; intros dates Hdates.
        -- inversion Hdates. constructor.
        -- apply Forall_cons in Hl. destruct Hl as [Hq Hl].
           inversion Hdates as [| ? d ? dates' Hd Hrest]; subst.
           cbn in Hd. rewrite Hq in Hd. injection Hd as <-.
           constructor; [exact Hpq | now apply IHall].
Qed.

(** One write: the entries of other dates are kept, the new entry is
    added, and the result is in date order. *)
Lemma update_health_history_spec (file : option (list HistoryEntry)) (report_date : string)
    (rows : list Row) (report : SanityReport) :
  is_Some (_parse_date report_date) ->
  well_dated (default [] file) ->
  exists history,
    update_health_history file report_date rows report = Some history
    /\ history ≡ₚ other_dates report_date (default [] file) ++ [new_entry report_date rows report]
    /\ well_dated history
    /\ sorted_by_date history.
Proof.
  intros [k Hk] Hwell. unfold update_health_history. rewrite Hk. cbn [mbind option_bind].
  fold (other_dates report_date (default [] file)).
  set (history := other_dates report_date (default [] file) ++ [new_entry report_date rows report]).
  assert (Hall : Forall (is_Some ∘ sort_key) history).
  { subst history. apply Forall_app. split.
    - unfold other_dates. apply Forall_forall. intros row Hin.
      apply list_elem_of_filter in Hin. destruct Hin as [_ Hin].
      unfold well_dated in Hwell. rewrite Forall_forall in Hwell.
      apply sort_key_is_Some. auto.
    - constructor; [| constructor]. apply sort_key_is_Some.
      rewrite (new_entry_date _ k); eauto. }
  apply mapM_is_Some_2 in Hall. destruct Hall as [keyed Hkeyed].
  rewrite Hkeyed. cbn [mbind option_bind].
  destruct (sort_by_date_spec history keyed Hkeyed) as (Hperm & Hwd & Hsorted).
  eexists. split; [reflexivity |]. auto.
Qed.

Lemma other_dates_idem (report_date : string) (history : list HistoryEntry) :
  other_dates report_date (other_dates report_date history) = other_dates report_date history.
Proof.
  unfold other_dates. induction history as [| row history IH]; [reflexivity |].
  rewrite filter_cons. destruct (decide _) as [Hkeep | Hdrop].
  - rewrite filter_cons_True by exact Hkeep. now rewrite IH.
  - exact IH.
Qed.

Lemma has_date_other_dates (report_date : string) (history : list HistoryEntry) :
  filter (fun row => has_date report_date row) (other_dates report_date history) = [].
Proof.
  unfold other_dates. induction history as [| row history IH]; [reflexivity |].
  rewrite filter_cons. destruct (decide _) as [Hkeep | Hdrop]; [| exact IH].
  rewrite filter_cons_False; [exact IH |].
  destruct (has_date report_date row); cbn in *; tauto.
Qed.

Lemma other_dates_snoc_new (report_date : string) (history : list HistoryEntry)
    (rows : list Row) (report : SanityReport) :
  other_dates report_date (history ++ [new_entry report_date rows report])
  = other_dates report_date history.
Proof.
  unfold other_dates. rewrite filter_app, filter_cons_False, filter_nil, app_nil_r.
  - reflexivity.
  - rewrite new_entry_has_date. cbn. tauto.
Qed.

Lemma has_date_snoc_new (report_date : string) (history : list HistoryEntry)
    (rows : list Row) (report : SanityReport) :
  filter (fun row => has_date report_date row)
         (other_dates report_date history ++ [new_entry report_date rows report])
  = [new_entry report_date rows report].
Proof.
  rewrite filter_app, has_date_other_dates, filter_cons_True, filter_nil.
  - reflexivity.
  - rewrite new_entry_has_date. exact I.
Qed.

(** C8.  Writing two snapshots for the same date to a history whose
    entries carry readable dates succeeds twice; afterwards there is
    exactly one entry for that date and it is the second snapshot, the
    entries of all other dates are those of the original history, and
    after each write the series is sorted by date ascending. *)
Theorem health_history_write_is_idempotent_by_date (file : option (list HistoryEntry))
    (report_date : string) (rows1 rows2 : list Row) (report1 report2 : SanityReport) :
  is_Some (_parse_date report_date) ->
  well_dated (default [] file) ->
  exists history1 history2,
    update_health_history file report_date rows1 report1 = Some history1
    /\ update_health_history (Some history1) report_date rows2 report2 = Some history2
    /\ filter (fun row => has_date report_date row) history2
       = [new_entry report_date rows2 report2]
    /\ history2 ≡ₚ other_dates report_date (default [] file)
                    ++ [new_entry report_date rows2 report2]
    /\ sorted_by_date history1
    /\ sorted_by_date history2.
Proof.
  intros Hdate Hwell.
  destruct (update_health_history_spec file report_date rows1 report1 Hdate Hwell)
    as (history1 & Hrun1 & Hperm1 & Hwell1 & Hsorted1).
  destruct (update_health_history_spec (Some history1) report_date rows2 report2 Hdate Hwell1)
    as (history2 & Hrun2 & Hperm2 & _ & Hsorted2).
  cbn [default] in Hperm2.
  assert (Hothers : other_dates report_date history1
                    ≡ₚ other_dates report_date (default [] file)).
  { transitivity (other_dates report_date
                    (other_dates report_date (default [] file)
                     ++ [new_entry report_date rows1 report1])).
    - unfold other_dates at 1 3. now rewrite Hperm1.
    - now rewrite other_dates_snoc_new, other_dates_idem. }
  exists history1, history2. repeat split; try assumption.
  - apply Permutation_singleton_r. rewrite Hperm2. now rewrite has_date_snoc_new.
  - now rewrite Hperm2, Hothers.
Qed.

End HealthHistory.

Lemma health_history_write_is_idempotent_by_date_witness :
  exists history1 history2,
    SanityLayer.update_health_history (Some Examples.stored_history) "2026-01-15"
      Examples.batch Examples.batch_report = Some history1
    /\ SanityLayer.update_health_history (Some history1) "2026-01-15"
         [] Examples.batch_report = Some history2
    /\ filter (fun row => SanityLayer.has_date "2026-01-15" row) history2
       = [SanityLayer.new_entry "2026-01-15" [] Examples.batch_report]
    /\ SanityLayer.he_date <$> history2
       = [Some "2026-01-10"; Some "2026-01-15"; Some "2026-01-20"]%string.
Proof.
  destruct (health_history_write_is_idempotent_by_date (Some Examples.stored_history)
              "2026-01-15" Examples.batch [] Examples.batch_report Examples.batch_report)
    as (history1 & history2 & Hrun1 & Hrun2 & Hone & _).
  - eexists. vm_compute. reflexivity.
  - repeat constructor; eexists; vm_compute; reflexivity.
  - exists history1, history2. repeat split; try assumption.
    vm_compute in Hrun1. injection Hrun1 as <-.
    vm_compute in Hrun2. injection Hrun2 as <-.
    reflexivity.
Defined.

(** ** Weight evolution *)

Section WeightEvolution.
Import PerformanceTracker StrategyEvolution Vocabulary.

(** C1 fails on the code.  One strategy that is not degraded is stepped
    up by [step_pct]; the candidate weights then sum to 102, the
    normalisation only ever adds points, and the weights returned sum to
    102 although the weights given sum to 100. *)
Theorem evolve_weights_can_return_total_above_100 :
  sum_values Examples.default_weights = 100%Z
  /\ exists new_weights applied,
       evolve_weights Examples.default_weights Examples.one_healthy_strategy
         (Examples.evolution_config 2 5) = Some (new_weights, applied)
       /\ new_weights !! "trend_momentum"%string = Some 27%Z
       /\ sum_values new_weights = 102%Z.
Proof.
  split; [vm_compute; reflexivity |].
  eexists _, _. split; [vm_compute; reflexivity |].
  split; vm_compute; reflexivity.
Qed.

(** C2 fails on the code.  With [step_pct = 2] and
    [max_total_adjustment_pct = 3] two degraded strategies are each
    stepped down by 2: the loop tests the cumulative shift before a step
    and never clips the step, so the shift ends at 4. *)
Theorem cumulative_shift_can_exceed_max_total :
  exists st,
    adjust Examples.default_weights Examples.two_degraded_strategies
      (Examples.evolution_config 2 3) = Some st
    /\ max_total_adjustment_pct (weight_adjustment (Examples.evolution_config 2 3)) = 3%Z
    /\ total_shift st = 4%Z
    /\ shift_of <$> changes st = [2%Z; 2%Z].
Proof.
  eexists. split; [vm_compute; reflexivity |].
  repeat split; vm_compute; reflexivity.
Qed.

End WeightEvolution.

(** ** Strategies without data *)

Section StrategiesWithoutData.
Import PerformanceTracker StrategyEvolution Vocabulary.

Lemma group_step_lookup (grouped : gmap string (list OutcomeRecord)) (record : OutcomeRecord)
    (k : string) :
  is_Some (group_step grouped record !! k) ->
  strategy_id record = k \/ is_Some (grouped !! k).
Proof.
  unfold group_step. intros Hk.
  destruct (decide (strategy_id record = k)) as [Heq | Hne]; [now left | right].
  now rewrite lookup_insert_ne in Hk.
Qed.

(** A strategy has a group only if some outcome record names it. *)
Lemma group_by_strategy_lookup (outcomes : list OutcomeRecord) (k : string) :
  is_Some (group_by_strategy outcomes !! k) ->
  Exists (fun r => strategy_id r = k) outcomes.
Proof.
  unfold group_by_strategy.
  assert (Hgen : forall grouped,
             is_Some (fold_left group_step outcomes grouped !! k) ->
             Exists (fun r => strategy_id r = k) outcomes \/ is_Some (grouped !! k)).
  { induction outcomes as [| record outcomes IH]; intros grouped Hk; cbn in Hk.
    - now right.
    - destruct (IH _ Hk) as [Hlater | Hnow].
      + left. now constructor 2.
      + destruct (group_step_lookup _ _ _ Hnow) as [Heq | Hold].
        * left. now constructor 1.
        * now right. }
  intros Hk. destruct (Hgen ∅ Hk) as [Hex | Hempty]; [exact Hex |].
  rewrite lookup_empty in Hempty. now destruct Hempty.
Qed.

Lemma sorted_keys_elem {V} (d : gmap string V) (k : string) :
  k ∈ sorted_keys d <-> is_Some (d !! k).
Proof.
  unfold sorted_keys. rewrite sorted_perm, list_elem_of_fmap. split.
  - intros ([k' v] & -> & Hin). apply elem_of_map_to_list in Hin. cbn. eauto.
  - intros [v Hv]. exists (k, v). split; [reflexivity |].
    now apply elem_of_map_to_list.
Qed.

Lemma summary_loop_lookup (config : EvolutionConfig) (grouped : gmap string (list OutcomeRecord))
    (ids : list string) (summary result : gmap string StrategySummary) (k : string) :
  summary_loop config grouped ids summary = Some result ->
  is_Some (result !! k) ->
  k ∈ ids \/ is_Some (summary !! k).
Proof.
  revert summary. induction ids as [| sid ids IH]; intros summary Hrun Hk; cbn in Hrun.
  - injection Hrun as <-. now right.
  - destruct (summarize_one config sid _) as [row |]; cbn in Hrun; [| discriminate].
    destruct (IH _ Hrun Hk) as [Hin | Hins].
    + left. now constructor 2.
    + destruct (decide (sid = k)) as [-> | Hne].
      * left. constructor.
      * right. now rewrite lookup_insert_ne in Hins.
Qed.

(** The summary has an entry only for strategies with outcome records. *)
Lemma summary_only_for_recorded_strategies (outcomes : list OutcomeRecord)
    (config : EvolutionConfig) (summary : gmap string StrategySummary) (sid : string) :
  summarize_strategy_performance outcomes config = Some summary ->
  Forall (fun r => strategy_id r <> sid) outcomes ->
  summary !! sid = None.
Proof.
  intros Hrun Hnone. unfold summarize_strategy_performance in Hrun.
  destruct (summary !! sid) as [row |] eqn:Hrow; [exfalso | reflexivity].
  destruct (summary_loop_lookup _ _ _ _ _ sid Hrun) as [Hin | Hempty]; [eauto | |].
  - apply sorted_keys_elem, group_by_strategy_lookup in Hin.
    apply Exists_exists in Hin. destruct Hin as (r & Hr & Hsid).
    rewrite Forall_forall in Hnone. now apply (Hnone r).
  - rewrite lookup_empty in Hempty. now destruct Hempty.
Qed.

(** The loop records a change only for a strategy of the summary. *)
Lemma evolve_step_changes (summary : gmap string StrategySummary) (config : EvolutionConfig)
    (st st' : LoopState) (sid : string) :
  evolve_step summary config st sid = Some st' ->
  Forall (fun c => is_Some (summary !! wc_strategy_id c)) (changes st) ->
  Forall (fun c => is_Some (summary !! wc_strategy_id c)) (changes st').
Proof.
  unfold evolve_step. intros Hstep Hall.
  destruct (strategy_to_weight_key config !! sid) as [key |]; cbn in Hstep; [| discriminate].
  destruct (candidate st !! key) as [current |]; cbn in Hstep; [| discriminate].
  destruct (summary !! sid) as [row |] eqn:Hrow.
  - destruct (degraded row);
      match type of Hstep with
      | (if ?b then _ else _) = _ => destruct b
      end; injection Hstep as <-; cbn; try exact Hall;
      (apply Forall_app; split; [exact Hall |]; constructor; [| constructor];
       cbn; rewrite Hrow; eauto).
  - rewrite Z.eqb_refl in Hstep. injection Hstep as <-. exact Hall.
Qed.

Lemma evolve_loop_changes (summary : gmap string StrategySummary) (config : EvolutionConfig)
    (ids : list string) (st st' : LoopState) :
  evolve_loop summary config ids st = Some st' ->
  Forall (fun c => is_Some (summary !! wc_strategy_id c)) (changes st) ->
  Forall (fun c => is_Some (summary !! wc_strategy_id c)) (changes st').
Proof.
  revert st. induction ids as [| sid ids IH]; intros st Hrun Hall; cbn in Hrun.
  - injection Hrun as <-. exact Hall.
  - destruct (_ <=? _)%Z.
    + injection Hrun as <-. exact Hall.
    + destruct (evolve_step summary config st sid) as [st1 |] eqn:Hstep;
        cbn in Hrun; [| discriminate].
      eapply IH; [exact Hrun |]. eapply evolve_step_changes; eauto.
Qed.

(** C3, as amended.  A strategy without any outcome record has no entry
    in the performance summary; its turn of the adjustment loop changes
    nothing (candidate weights, recorded changes and cumulative shift are
    as before), and [evolve_weights] records no [WeightChange] for it. *)
Theorem strategy_without_records_is_not_adjusted (outcomes : list OutcomeRecord)
    (config : EvolutionConfig) (summary : gmap string StrategySummary) (sid : string) :
  summarize_strategy_performance outcomes config = Some summary ->
  Forall (fun r => strategy_id r <> sid) outcomes ->
  summary !! sid = None
  /\ (forall st key current,
        strategy_to_weight_key config !! sid = Some key ->
        candidate st !! key = Some current ->
        evolve_step summary config st sid = Some st)
  /\ (forall current_weights new_weights applied,
        evolve_weights current_weights summary config = Some (new_weights, applied) ->
        Forall (fun c => wc_strategy_id c <> sid) applied).
Proof.
  intros Hsummary Hnone.
  pose proof (summary_only_for_recorded_strategies _ _ _ _ Hsummary Hnone) as Habsent.
  split; [exact Habsent |]. split.
  - intros st key current Hkey Hcurrent. unfold evolve_step.
    rewrite Hkey. cbn. rewrite Hcurrent. cbn. rewrite Habsent.
    now rewrite Z.eqb_refl.
  - intros current_weights new_weights applied Hrun. unfold evolve_weights in Hrun.
    destruct (adjust current_weights summary config) as [st |] eqn:Hadjust;
      cbn in Hrun; [| discriminate].
    injection Hrun as _ <-.
    unfold adjust in Hadjust. apply evolve_loop_changes in Hadjust; [| constructor].
    eapply Forall_impl; [exact Hadjust |].
    intros c [row Hrow] Heq. congruence.
Qed.

End StrategiesWithoutData.

Lemma strategy_without_records_is_not_adjusted_witness :
  exists summary new_weights applied,
    PerformanceTracker.summarize_strategy_performance Examples.single_outcome
      (Examples.evolution_config 2 5) = Some summary
    /\ summary !! "fundamentals"%string = None
    /\ StrategyEvolution.evolve_weights Examples.default_weights summary
         (Examples.evolution_config 2 5) = Some (new_weights, applied)
    /\ Forall (fun c => StrategyEvolution.wc_strategy_id c <> "fundamentals"%string) applied.
Proof.
  destruct (PerformanceTracker.summarize_strategy_performance Examples.single_outcome
              (Examples.evolution_config 2 5)) as [summary |] eqn:Hsummary;
    [| vm_compute in Hsummary; discriminate].
  destruct (StrategyEvolution.evolve_weights Examples.default_weights summary
              (Examples.evolution_config 2 5)) as [[new_weights applied] |] eqn:Hrun.
  - destruct (strategy_without_records_is_not_adjusted Examples.single_outcome
                (Examples.evolution_config 2 5) summary "fundamentals" Hsummary)
      as (Habsent & _ & Hchanges).
    + repeat constructor. vm_compute. discriminate.
    + exists summary, new_weights, applied. eauto.
  - vm_compute in Hsummary. injection Hsummary as <-. vm_compute in Hrun. discriminate.
Defined.

(** C3, the claim as stated fails, in two ways.  First: the only
    strategy with outcome records has a single observation on one
    horizon, fewer than the five required on every horizon; it is
    summarised as not degraded, and [evolve_weights] steps its weight
    from 25 to 27 and records the change.  Second: when another strategy
    is stepped down, the normalisation hands out the freed points by key
    order, so the weight of a strategy without a single record moves
    from 25 to 26 although no change is recorded for it. *)
Lemma strategy_with_insufficient_data_is_stepped_up :
  (Vocabulary.insufficient_data Examples.single_outcome (Examples.evolution_config 2 5)
     "trend_momentum" = true
   /\ exists summary new_weights,
        PerformanceTracker.summarize_strategy_performance Examples.single_outcome
          (Examples.evolution_config 2 5) = Some summary
        /\ StrategyEvolution.evolve_weights Examples.default_weights summary
             (Examples.evolution_config 2 5)
           = Some (new_weights,
                   [ {| StrategyEvolution.wc_strategy_id := "trend_momentum";
                        StrategyEvolution.weight_key := "trend_momentum";
                        StrategyEvolution.old_weight := 25;
                        StrategyEvolution.new_weight := 27;
                        StrategyEvolution.reason := "relative outperformance detected" |} ])
        /\ Examples.default_weights !! "trend_momentum"%string = Some 25%Z
        /\ new_weights !! "trend_momentum"%string = Some 27%Z)
  /\ (Vocabulary.insufficient_data Examples.five_losses (Examples.evolution_config 2 5)
        "fundamentals" = true
      /\ exists summary new_weights,
           PerformanceTracker.summarize_strategy_performance Examples.five_losses
             (Examples.evolution_config 2 5) = Some summary
           /\ StrategyEvolution.evolve_weights Examples.default_weights summary
                (Examples.evolution_config 2 5)
              = Some (new_weights,
                      [ {| StrategyEvolution.wc_strategy_id := "news_sentiment";
                           StrategyEvolution.weight_key := "news_sentiment";
                           StrategyEvolution.old_weight := 20;
                           StrategyEvolution.new_weight := 18;
                           StrategyEvolution.reason := "degraded performance detected" |} ])
           /\ Examples.default_weights !! "fundamentals"%string = Some 25%Z
           /\ new_weights !! "fundamentals"%string = Some 26%Z).
Proof.
  split.
  - split; [vm_compute; reflexivity |].
    eexists _, _. split; [vm_compute; reflexivity |].
    split; [vm_compute; reflexivity |].
    split; vm_compute; reflexivity.
  - split; [vm_compute; reflexivity |].
    eexists _, _. split; [vm_compute; reflexivity |].
    split; [vm_compute; reflexivity |].
    split; vm_compute; reflexivity.
Qed.

(** ** What the normalisation does to the total *)

Section Normalisation.
Import PerformanceTracker StrategyEvolution Vocabulary.

Lemma sum_values_insert (d : gmap string Z) (k : string) (v : Z) :
  d !! k = None -> sum_values (<[k := v]> d) = (v + sum_values d)%Z.
Proof.
  intros Hk. unfold sum_values.
  rewrite map_fold_insert_L; [reflexivity | | exact Hk].
  intros. lia.
Qed.

Lemma sum_values_alter_succ (d : gmap string Z) (k : string) :
  is_Some (d !! k) -> sum_values (alter Z.succ k d) = (sum_values d + 1)%Z.
Proof.
  intros [v Hv].
  rewrite <- (insert_delete_id d k v Hv) at 1 2.
  rewrite alter_insert_eq, !sum_values_insert by apply lookup_delete_eq. lia.
Qed.

(** Handing out points one at a time adds one to the total per turn and
    keeps the keys. *)
Lemma distribute_sum (fractions : list (string * Q)) (indices : list nat)
    (result : gmap string Z) :
  fractions <> [] ->
  Forall (fun kv => is_Some (result !! kv.1)) fractions ->
  sum_values (fold_left (distribute_step fractions) indices result)
  = (sum_values result + Z.of_nat (length indices))%Z.
Proof.
  intros Hne. revert result.
  induction indices as [| index indices IH]; intros result Hkeys; cbn [fold_left length].
  - lia.
  - assert (Hlt : (index mod length fractions < length fractions)%nat).
    { apply Nat.mod_upper_bound. destruct fractions; [contradiction | discriminate]. }
    destruct (lookup_lt_is_Some_2 _ _ Hlt) as [[k f] Hkf].
    assert (Hk : is_Some (result !! k)).
    { rewrite Forall_forall in Hkeys.
      apply (Hkeys (k, f)). eapply list_elem_of_lookup_2. exact Hkf. }
    rewrite IH.
    + unfold distribute_step. rewrite Hkf, sum_values_alter_succ by exact Hk. lia.
    + unfold distribute_step. rewrite Hkf.
      eapply Forall_impl; [exact Hkeys |]. intros [k' f'] Hk'. cbn in *.
      rewrite lookup_alter. destruct (decide (k = k')) as [-> | _]; [| exact Hk'].
      destruct Hk' as [v ->]. cbn. eauto.
Qed.

(** The normalisation tops the truncated values up to [total], and
    leaves them as they are when they already reach or exceed it: it
    never takes a point away. *)
Lemma round_preserve_total_sum (values : gmap string Q) (total : Z) :
  values <> ∅ ->
  sum_values (_round_preserve_total values total)
  = Z.max total (sum_values (Py.int_of_float <$> values)).
Proof.
  intros Hne. unfold _round_preserve_total.
  set (floors := Py.int_of_float <$> values).
  set (fractions := Py.sorted by_fraction_then_key _).
  assert (Hperm : fractions ≡ₚ
            (fun kv : string * Q => (kv.1, (kv.2 - inject_Z (Py.int_of_float kv.2))%Q))
              <$> map_to_list values) by apply sorted_perm.
  assert (Hkeys : Forall (fun kv => is_Some (floors !! kv.1)) fractions).
  { rewrite Hperm. apply Forall_fmap, Forall_forall. intros [k v] Hin. cbn.
    apply elem_of_map_to_list in Hin. subst floors. rewrite lookup_fmap, Hin. cbn. eauto. }
  destruct fractions as [| kv rest] eqn:Hfractions.
  - exfalso. apply Hne, map_to_list_empty_iff.
    apply Permutation_nil_l in Hperm. symmetry in Hperm.
    now apply fmap_nil_inv in Hperm.
  - rewrite distribute_sum; [| discriminate | exact Hkeys].
    rewrite length_seq. lia.
Qed.

End Normalisation.

(** ** Further facts about the adjustment loop and the scoring engine *)

Section AdjustmentLoop.
Import PerformanceTracker StrategyEvolution Vocabulary.

Lemma evolve_step_shift (summary : gmap string StrategySummary) (config : EvolutionConfig)
    (st st' : LoopState) (sid : string) :
  evolve_step summary config st sid = Some st' ->
  total_shift st = Py.sumZ (shift_of <$> changes st) ->
  total_shift st' = Py.sumZ (shift_of <$> changes st').
Proof.
  unfold evolve_step. intros Hstep Hinv.
  destruct (strategy_to_weight_key config !! sid) as [key |]; cbn in Hstep; [| discriminate].
  destruct (candidate st !! key) as [current |]; cbn in Hstep; [| discriminate].
  assert (Hsnoc : forall c, Py.sumZ (shift_of <$> (changes st ++ [c]))
                            = (Py.sumZ (shift_of <$> changes st) + shift_of c)%Z).
  { intros c. rewrite fmap_app. unfold Py.sumZ. rewrite foldr_app. cbn.
    generalize (shift_of <$> changes st). intros l.
    induction l as [| x l IH]; cbn; lia. }
  destruct (summary !! sid) as [row |]; [destruct (degraded row) |];
    match type of Hstep with
    | (if ?b then _ else _) = _ => destruct b
    end; injection Hstep as <-; cbn [changes total_shift]; try exact Hinv;
    rewrite Hsnoc, Hinv; reflexivity.
Qed.

(** The cumulative shift that the loop compares with
    [max_total_adjustment_pct] is the sum of the absolute differences of
    the recorded changes. *)
Theorem total_shift_is_sum_of_recorded_shifts (current_weights : gmap string Z)
    (summary : gmap string StrategySummary) (config : EvolutionConfig) (st : LoopState) :
  adjust current_weights summary config = Some st ->
  total_shift st = Py.sumZ (shift_of <$> changes st).
Proof.
  unfold adjust.
  set (st0 := {| candidate := _; changes := []; total_shift := 0 |}).
  assert (Hinv0 : total_shift st0 = Py.sumZ (shift_of <$> changes st0)) by reflexivity.
  generalize dependent st0. intros st0.
  generalize (sorted_keys (strategy_to_weight_key config)). intros ids.
  revert st0. induction ids as [| sid ids IH]; intros st0 Hinv0 Hrun; cbn in Hrun.
  - now injection Hrun as <-.
  - destruct (_ <=? _)%Z.
    + now injection Hrun as <-.
    + destruct (evolve_step summary config st0 sid) as [st1 |] eqn:Hstep;
        cbn in Hrun; [| discriminate].
      apply (IH st1); [| exact Hrun]. eapply evolve_step_shift; eauto.
Qed.

Lemma total_shift_is_sum_of_recorded_shifts_witness :
  exists st,
    adjust Examples.default_weights Examples.two_degraded_strategies
      (Examples.evolution_config 2 5) = Some st
    /\ total_shift st = Py.sumZ (shift_of <$> changes st).
Proof.
  destruct (adjust Examples.default_weights Examples.two_degraded_strategies
              (Examples.evolution_config 2 5)) as [st |] eqn:Hrun;
    [| vm_compute in Hrun; discriminate].
  exists st. split; [reflexivity |].
  exact (total_shift_is_sum_of_recorded_shifts _ _ _ st Hrun).
Defined.

(** The total of the weights that [evolve_weights] returns: 100 when
    the adjusted weights sum to at most 100, and their own sum when they
    sum to more. *)
Theorem evolve_weights_total (current_weights : gmap string Z)
    (summary : gmap string StrategySummary) (config : EvolutionConfig)
    (new_weights : gmap string Z) (applied : list WeightChange) :
  current_weights <> ∅ ->
  evolve_weights current_weights summary config = Some (new_weights, applied) ->
  exists st,
    adjust current_weights summary config = Some st
    /\ sum_values new_weights
       = Z.max 100 (sum_values (Py.int_of_float <$> candidate st)).
Proof.
  intros Hne Hrun. unfold evolve_weights in Hrun.
  destruct (adjust current_weights summary config) as [st |] eqn:Hadjust;
    cbn in Hrun; [| discriminate].
  injection Hrun as <- _. exists st. split; [reflexivity |].
  apply round_preserve_total_sum.
  (* the loop only overwrites keys, so the candidate is not empty *)
  assert (Hdom : forall ids st0 st1,
             evolve_loop summary config ids st0 = Some st1 ->
             candidate st0 <> ∅ -> candidate st1 <> ∅).
  { clear. induction ids as [| sid ids IH]; intros st0 st1 Hloop Hst0; cbn in Hloop.
    - now injection Hloop as <-.
    - destruct (_ <=? _)%Z; [now injection Hloop as <- |].
      destruct (evolve_step summary config st0 sid) as [st' |] eqn:Hstep;
        cbn in Hloop; [| discriminate].
      apply (IH st' st1 Hloop).
      unfold evolve_step in Hstep.
      destruct (strategy_to_weight_key config !! sid) as [key |]; cbn in Hstep; [| discriminate].
      destruct (candidate st0 !! key) as [current |]; cbn in Hstep; [| discriminate].
      destruct (summary !! sid) as [row |]; [destruct (degraded row) |];
        match type of Hstep with
        | (if ?b then _ else _) = _ => destruct b
        end; injection Hstep as <-; cbn [candidate]; try exact Hst0;
        apply insert_non_empty. }
  apply (Hdom _ _ _ Hadjust). cbn. intros Hempty.
  apply fmap_empty_inv in Hempty. contradiction.
Qed.

Lemma evolve_weights_total_witness :
  exists new_weights applied st,
    evolve_weights Examples.default_weights Examples.two_degraded_strategies
      (Examples.evolution_config 2 5) = Some (new_weights, applied)
    /\ adjust Examples.default_weights Examples.two_degraded_strategies
         (Examples.evolution_config 2 5) = Some st
    /\ sum_values new_weights = Z.max 100 (sum_values (Py.int_of_float <$> candidate st)).
Proof.
  destruct (evolve_weights Examples.default_weights Examples.two_degraded_strategies
              (Examples.evolution_config 2 5)) as [[new_weights applied] |] eqn:Hrun;
    [| vm_compute in Hrun; discriminate].
  destruct (evolve_weights_total Examples.default_weights Examples.two_degraded_strategies
              (Examples.evolution_config 2 5) new_weights applied)
    as (st & Hadjust & Hsum).
  - vm_compute. discriminate.
  - exact Hrun.
  - exists new_weights, applied, st. auto.
Defined.

End AdjustmentLoop.

Section ScoringEngine.
Import CoreAnalysis.

(** The composite score lies within the configured bounds. *)
Theorem composite_score_within_bounds (breakdown : list (string * Q)) (config : Config) :
  (bounds_min (score_bounds config) <= bounds_max (score_bounds config))%Z ->
  (bounds_min (score_bounds config)
   <= calculate_composite_score breakdown config
   <= bounds_max (score_bounds config))%Z.
Proof.
  intros Hbounds. unfold calculate_composite_score.
  apply clamp_int_within. exact Hbounds.
Qed.

Lemma composite_score_within_bounds_witness :
  (0 <= calculate_composite_score [("trend_momentum"%string, 140%Q)] Examples.analysis_config
     <= 100)%Z.
Proof.
  apply (composite_score_within_bounds [("trend_momentum"%string, 140%Q)]
           Examples.analysis_config).
  vm_compute. discriminate.
Defined.

(** The rating is a function of the score and the two thresholds. *)
Theorem rating_follows_thresholds (score : Z) (config : Config) :
  ((buy_min (rating_thresholds config) <= score)%Z ->
     map_score_to_rating score config = "BUY"%string)
  /\ ((hold_min (rating_thresholds config) <= score < buy_min (rating_thresholds config))%Z ->
        map_score_to_rating score config = "HOLD"%string)
  /\ ((score < hold_min (rating_thresholds config))%Z ->
      (score < buy_min (rating_thresholds config))%Z ->
        map_score_to_rating score config = "SELL"%string).
Proof.
  unfold map_score_to_rating.
  destruct (Z.leb_spec (buy_min (rating_thresholds config)) score);
    destruct (Z.leb_spec (hold_min (rating_thresholds config)) score);
    repeat split; intros; try reflexivity; lia.
Qed.

Lemma rating_follows_thresholds_witness :
  map_score_to_rating 83 Examples.analysis_config = "BUY"%string
  /\ map_score_to_rating 50 Examples.analysis_config = "HOLD"%string
  /\ map_score_to_rating 10 Examples.analysis_config = "SELL"%string.
Proof.
  destruct (rating_follows_thresholds 83 Examples.analysis_config) as (Hbuy & _ & _).
  destruct (rating_follows_thresholds 50 Examples.analysis_config) as (_ & Hhold & _).
  destruct (rating_follows_thresholds 10 Examples.analysis_config) as (_ & _ & Hsell).
  split; [apply Hbuy; vm_compute; discriminate |].
  split; [apply Hhold; vm_compute; split; [discriminate | reflexivity] |].
  apply Hsell; vm_compute; reflexivity.
Defined.

End ScoringEngine.

Section ManualAnswers.
Import CoreAnalysis ManualApi.

(** Whatever analysis the manual entry point answers with, it carries
    neither [previous_score] nor [score_before_daily_cap]. *)
Theorem manual_answers_carry_no_cap_fields (str_to_float : string -> option Q)
    (payload : gmap string json) (config : Config) (status : Z)
    (result : AnalysisResult) (strategy : StrategyParameters) :
  handle_manual_analysis str_to_float payload config
    = Some (status, AnalysisBody result strategy) ->
  r_previous_score result = None /\ r_score_before_daily_cap result = None.
Proof.
  intros Hrun.
  destruct (manual_analysis_result_origin str_to_float payload config status result strategy Hrun)
    as (analysis_input & _ & Hanalysis).
  unfold analyze_stock in Hanalysis.
  destruct (calculate_score_breakdown analysis_input config) as [breakdown |];
    cbn in Hanalysis; [| discriminate].
  injection Hanalysis as <-. cbn. auto.
Qed.

Lemma manual_answers_carry_no_cap_fields_witness :
  exists result,
    handle_manual_analysis Examples.no_numeral_strings Examples.manual_payload
      Examples.analysis_config = Some (OK, AnalysisBody result Examples.manual_strategy)
    /\ r_previous_score result = None
    /\ r_score_before_daily_cap result = None.
Proof.
  destruct (handle_manual_analysis Examples.no_numeral_strings Examples.manual_payload
              Examples.analysis_config) as [[status [message | result strategy]] |] eqn:Hrun;
    try (vm_compute in Hrun; discriminate).
  assert (Hshape : status = OK /\ strategy = Examples.manual_strategy).
  { vm_compute in Hrun. injection Hrun as <- _ <-. split; reflexivity. }
  destruct Hshape as [-> ->].
  exists result. split; [reflexivity |].
  exact (manual_answers_carry_no_cap_fields _ _ _ _ _ _ Hrun).
Defined.

End ManualAnswers.
